(** * obsidian-template-plugin: settings manager and vault event handler

    A shallow embedding of the plugin's TypeScript sources:
    - [src/main.ts]                     (TemplatePlugin.onload, DEFAULT_SETTINGS)
    - [src/settings/SettingsManager.ts] (SettingsManager)
    - [src/events/VaultEventHandler.ts] (VaultEventHandler)

    JavaScript objects live in a store and are handled through references,
    so that the two names the code has for the settings record
    ([this.settings] of the manager and [this.plugin.settings]) can alias.
    Methods are computations in a state-and-exception monad over the
    [World]: store, plugin fields, host storage and the trace of calls made
    into the logger and the host.  An [await] is plain sequencing: the host
    delivers one callback at a time. *)

From Stdlib Require Import ZArith Ascii String.
From stdpp Require Import gmap strings list fin_maps pretty.

Local Open Scope string_scope.
Local Open Scope Z_scope.

(** ** JavaScript strings

    A string is a sequence of UTF-16 code units.  A character of a Rocq
    [string] stands for the code unit of the same number, so the model
    covers the strings over U+0000..U+00FF. *)
Module JSString.

(** [s.length] *)
Definition length (s : string) : Z := Z.of_nat (String.length s).

(** [s.startsWith(p)] *)
Definition startsWith (s p : string) : bool := String.prefix p s.

(** [s.includes(sub)]: [sub] occurs at some position of [s]. *)
Fixpoint includes (s sub : string) : bool :=
  String.prefix sub s ||
  match s with
  | EmptyString => false
  | String _ s' => includes s' sub
  end.

(** Lower case of one code unit of U+0000..U+00FF: the letters A-Z and
    the capital letters U+00C0..U+00DE (U+00D7, the multiplication sign,
    apart) move up by 32. *)
Definition lower_unit (c : ascii) : ascii :=
  let n := N_of_ascii c in
  if ((65 <=? n) && (n <=? 90))%N
     || ((192 <=? n) && (n <=? 222) && negb (n =? 215))%N
  then ascii_of_N (n + 32) else c.

(** [s.toLowerCase()] *)
Fixpoint toLowerCase (s : string) : string :=
  match s with
  | EmptyString => EmptyString
  | String c s' => String (lower_unit c) (toLowerCase s')
  end.

(** [s.split(sep)] for a separator of one code unit: never empty. *)
Fixpoint split (sep : ascii) (s : string) : list string :=
  match s with
  | EmptyString => [EmptyString]
  | String c s' =>
      if Ascii.eqb c sep then EmptyString :: split sep s'
      else match split sep s' with
           | seg :: rest => String c seg :: rest
           | [] => [String c EmptyString]
           end
  end.

(** [s.substring(0, n)] *)
Definition substring0 (n : nat) (s : string) : string := String.substring 0 n s.

(** Two decimal digits of a number below 100. *)
Definition two_digits (n : N) : string :=
  pretty (n / 10)%N +:+ pretty (n mod 10)%N.

(** [(size / (1024 * 1024)).toFixed(2)] for an integer [size]: the
    division by 2^20 is exact on doubles, and [toFixed] takes the integer
    nearest to a hundred times the magnitude, the larger one on a tie. *)
Definition toFixed2_MiB (size : Z) : string :=
  let n := Z.to_N ((200 * Z.abs size + 2 ^ 20) / 2 ^ 21) in
  (if size <? 0 then "-" else "") +:+
  pretty (n / 100)%N +:+ "." +:+ two_digits (n mod 100)%N.

End JSString.

(** ** Values *)

(** References into the object store. *)
Abbreviation loc := positive (only parsing).

(** JavaScript values.  Numbers are the integers: every number this code
    computes or compares is one (lengths, byte counts, the bound 100).
    [VObj] is any non-primitive value, known by its identity. *)
Inductive jsval :=
| VUndefined
| VNull
| VBool (b : bool)
| VNum (n : Z)
| VStr (s : string)
| VObj (l : loc).

#[global] Instance jsval_eq_dec : EqDecision jsval.
Proof. solve_decision. Defined.

(** What [if (v)] tests. *)
Definition truthy (v : jsval) : bool :=
  match v with
  | VUndefined | VNull => false
  | VBool b => b
  | VNum n => negb (n =? 0)
  | VStr s => negb (String.eqb s "")
  | VObj _ => true
  end.

(** A plain object: its own enumerable properties. *)
Abbreviation obj := (gmap string jsval) (only parsing).

(** [o[k]]: a missing property reads as [undefined]. *)
Definition prop (o : gmap string jsval) (k : string) : jsval :=
  default VUndefined (o !! k).

(** The keys of [TemplatePluginSettings] (src/types/index.ts). *)
Inductive Key := enableFeature | exampleSetting.

#[global] Instance Key_eq_dec : EqDecision Key.
Proof. solve_decision. Defined.

(** [String(key)] *)
Definition key_name (k : Key) : string :=
  match k with
  | enableFeature => "enableFeature"
  | exampleSetting => "exampleSetting"
  end.

(** [TemplatePluginSettings[K]]: the type the signature of [updateSetting]
    gives its value. *)
Definition typed_value (k : Key) (v : jsval) : Prop :=
  match k, v with
  | enableFeature, VBool _ => True
  | exampleSetting, VStr _ => True
  | _, _ => False
  end.

(** What is thrown: an [Error], with its [message] and [stack], or any
    other value, with what [String(e)] gives for it. *)
Inductive exn :=
| ErrorObj (message : string) (stack : jsval)
| NonError (rendering : string).

#[global] Instance exn_eq_dec : EqDecision exn.
Proof. solve_decision. Defined.

(** [e instanceof Error ? e.message : String(e)] *)
Definition describe (e : exn) : jsval :=
  match e with
  | ErrorObj m _ => VStr m
  | NonError r => VStr r
  end.

(** [e instanceof Error ? e.stack : undefined] *)
Definition stack_of (e : exn) : jsval :=
  match e with
  | ErrorObj _ st => st
  | NonError _ => VUndefined
  end.

(** ** The world *)

Inductive Level := Debug | Info | Warn | Error.

(** The object a log call passes as [this]. *)
Inductive Component := CTemplatePlugin | CSettingsManager | CVaultEventHandler.

(** The calls made out of the plugin, in order. *)
Inductive Event :=
| ELog (lvl : Level) (who : Component) (msg : string)
       (data : option (list (string * jsval)))
| EInitLogger
| ERegisterLoggerClass (who : Component) (name : string)
| ELoadData
| ESaveData (data : gmap string jsval)
| EAddSettingTab
| ERegisterEvent (name : string)
| EAddRibbonIcon (icon title : string)
| EAddCommand (id name : string).

#[global] Instance Level_eq_dec : EqDecision Level.
Proof. solve_decision. Defined.
#[global] Instance Component_eq_dec : EqDecision Component.
Proof. solve_decision. Defined.
#[global] Instance Event_eq_dec : EqDecision Event.
Proof. solve_decision. Defined.

(** What surrounds the plugin object: the object store, the host's storage
    for the plugin ([data.json]: nothing, or the object last saved), the
    outcomes of the storage calls to come ([Some e]: the call raises [e];
    [None], or no entry left: it succeeds), the manifest, and the trace. *)
Record Host := mkHost {
  heap : gmap loc (gmap string jsval);
  disk : option (gmap string jsval);
  pending : list (option exn);
  manifest_version : string;
  trace : list Event
}.

(** A [SettingsManager] object: its [settings] field.  Its [plugin] field
    is the one plugin of the world. *)
Record ManagerObj := mkManager { sm_settings : loc }.

(** The fields of the plugin object, as [onload] assigns them.
    [vaultEventHandler] has no field but [plugin]. *)
Record Plugin := mkPlugin {
  settings : loc;
  settingsManager : ManagerObj
}.

Record World := mkWorld { plugin : Plugin; host : Host }.

Definition set_heap (hp : gmap loc (gmap string jsval)) (h : Host) : Host :=
  mkHost hp (disk h) (pending h) (manifest_version h) (trace h).
Definition set_disk (d : option (gmap string jsval)) (h : Host) : Host :=
  mkHost (heap h) d (pending h) (manifest_version h) (trace h).
Definition set_pending (p : list (option exn)) (h : Host) : Host :=
  mkHost (heap h) (disk h) p (manifest_version h) (trace h).
Definition set_trace (t : list Event) (h : Host) : Host :=
  mkHost (heap h) (disk h) (pending h) (manifest_version h) t.

(** ** Computations: state and exceptions *)

Inductive Res (A : Type) :=
| Ret (a : A)
| Throw (e : exn).
Arguments Ret {A} a.
Arguments Throw {A} e.

Definition M (S A : Type) : Type := S -> Res A * S.

Definition ret {S A} (a : A) : M S A := fun s => (Ret a, s).

Definition throw {S A} (e : exn) : M S A := fun s => (Throw e, s).

Definition bind {S A B} (m : M S A) (k : A -> M S B) : M S B :=
  fun s =>
    match m s with
    | (Ret a, s') => k a s'
    | (Throw e, s') => (Throw e, s')
    end.

(** [try { m } catch (e) { handler e }] *)
Definition try_catch {S A} (m : M S A) (handler : exn -> M S A) : M S A :=
  fun s =>
    match m s with
    | (Ret a, s') => (Ret a, s')
    | (Throw e, s') => handler e s'
    end.

(** [if (c) { m }] *)
Definition when {S} (c : bool) (m : M S unit) : M S unit :=
  if c then m else ret tt.

Declare Scope js_scope.
Delimit Scope js_scope with js.
Notation "x <- m ;; k" := (bind m (fun x => k))
  (at level 20, m at level 99, k at level 200, only parsing) : js_scope.
Notation "m ;; k" := (bind m (fun _ => k))
  (at level 100, k at level 200, only parsing, right associativity) : js_scope.
Local Open Scope js_scope.

(** A computation on the host, run from a method of a component. *)
Definition in_host {A} (m : M Host A) : M World A :=
  fun w => let (r, h) := m (host w) in (r, mkWorld (plugin w) h).

(** A method of a component, run with the plugin fields [p]. *)
Definition with_plugin {A} (p : Plugin) (m : M World A) : M Host (A * Plugin) :=
  fun h =>
    match m (mkWorld p h) with
    | (Ret a, w) => (Ret (a, plugin w), host w)
    | (Throw e, w) => (Throw e, host w)
    end.

(** One more call in the trace. *)
Definition emit (e : Event) : M Host unit :=
  fun h => (Ret tt, set_trace (trace h ++ [e]) h).

(** ** The logger

    The logging utility ([@/utils], the obsidian-logger submodule) is a
    collaborator outside the sources. *)

(** Modelled from the spec: a call to one of the leveled log functions of
    [@/utils], which are not among the sources.  The call is recorded in
    the trace with its level, its [this], its message and its data,
    whatever the logger then prints. *)
Definition log (lvl : Level) (who : Component) (msg : string)
    (data : option (list (string * jsval))) : M Host unit :=
  emit (ELog lvl who msg data).

(** Modelled from the spec: [initLogger] of [@/utils], recorded in the
    trace. *)
Definition initLogger : M Host unit := emit EInitLogger.

(** Modelled from the spec: [registerLoggerClass] of [@/utils], recorded in
    the trace. *)
Definition registerLoggerClass (who : Component) (name : string) : M Host unit :=
  emit (ERegisterLoggerClass who name).

(** ** The host

    The host's plugin API is outside the sources: storage is an opaque
    load and save of one blob, and a registration call records itself and
    returns. *)

(** The outcome of the storage call being made. *)
Definition take_outcome : M Host (option exn) :=
  fun h =>
    match pending h with
    | [] => (Ret None, h)
    | o :: rest => (Ret o, set_pending rest h)
    end.

(** Modelled from the spec: the host's [loadData], [await this.loadData()].
    It raises, or gives the persisted blob; [None] is [null], nothing was
    ever saved. *)
Definition loadData : M Host (option (gmap string jsval)) :=
  emit ELoadData ;;
  o <- take_outcome ;;
  match o with
  | Some e => throw e
  | None => fun h => (Ret (disk h), h)
  end.

(** Modelled from the spec: the host's [saveData],
    [await this.saveData(data)], [data] a reference to the object to
    serialise.  It raises and leaves the persisted blob as it was, or makes
    the object's content the persisted blob. *)
Definition saveData (data : loc) : M Host unit :=
  fun h =>
    let content := default ∅ (heap h !! data) in
    (emit (ESaveData content) ;;
     o <- take_outcome ;;
     match o with
     | Some e => throw e
     | None => fun h' => (Ret tt, set_disk (Some content) h')
     end) h.

(** Modelled from the spec: the host's [addSettingTab], recorded in the
    trace. *)
Definition addSettingTab : M Host unit := emit EAddSettingTab.

(** Modelled from the spec: the host's
    [registerEvent(this.app.vault.on(name, callback))], recorded in the
    trace. *)
Definition registerEvent (name : string) : M Host unit := emit (ERegisterEvent name).

(** Modelled from the spec: the host's [addRibbonIcon], recorded in the
    trace. *)
Definition addRibbonIcon (icon title : string) : M Host unit :=
  emit (EAddRibbonIcon icon title).

(** Modelled from the spec: the host's [addCommand], recorded in the
    trace. *)
Definition addCommand (id name : string) : M Host unit :=
  emit (EAddCommand id name).

(** ** The object store *)

(** A new object with the properties [o], at a reference not yet in the
    store. *)
Definition alloc (o : gmap string jsval) : M Host loc :=
  fun h =>
    let l := fresh (dom (heap h)) in
    (Ret l, set_heap (<[l := o]> (heap h)) h).

(** [ref[k]] *)
Definition get_field (l : loc) (k : string) : M Host jsval :=
  fun h => (Ret (prop (default ∅ (heap h !! l)) k), h).

(** [ref[k] = v] *)
Definition set_field (l : loc) (k : string) (v : jsval) : M Host unit :=
  fun h => (Ret tt, set_heap (alter (<[k := v]>) l (heap h)) h).

(** [Object.assign(target, ...sources)]: the properties of each source in
    turn are written over the target's; a [null] source is skipped. *)
Definition Object_assign (target : loc) (sources : list (option (gmap string jsval)))
    : M Host loc :=
  fun h =>
    let write (acc : gmap string jsval) (src : option (gmap string jsval)) :=
      match src with
      | Some o => o ∪ acc
      | None => acc
      end in
    (Ret target,
     set_heap (alter (fun o => foldl write o sources) target (heap h)) h).

(** ** Logging from a component

    [debug(this, msg, data)] and its siblings, from [onload] (over the
    host, before the plugin fields are assigned) and from the methods of
    the components (over the world). *)
Class Hosted (S : Type) := run_host : forall {A : Type}, M Host A -> M S A.
#[global] Instance Hosted_Host : Hosted Host := fun _ m => m.
#[global] Instance Hosted_World : Hosted World := @in_host.

Section Logging.
Context {S : Type} `{Hosted S}.

Definition debug (who : Component) (msg : string)
    (data : option (list (string * jsval))) : M S unit :=
  run_host (log Debug who msg data).
Definition info (who : Component) (msg : string)
    (data : option (list (string * jsval))) : M S unit :=
  run_host (log Info who msg data).
Definition warn (who : Component) (msg : string)
    (data : option (list (string * jsval))) : M S unit :=
  run_host (log Warn who msg data).
Definition error (who : Component) (msg : string)
    (data : option (list (string * jsval))) : M S unit :=
  run_host (log Error who msg data).
End Logging.

(** [this.plugin.settings], read from a component. *)
Definition plugin_settings : M World loc :=
  fun w => (Ret (settings (plugin w)), w).

(** ** src/settings/SettingsManager.ts *)
Module SettingsManager.

(** [new SettingsManager(plugin, settings)] *)
Definition new (settings : loc) : ManagerObj := mkManager settings.

Definition initialize (this : ManagerObj) : M World unit :=
  debug CSettingsManager "Initializing settings manager - preparing UI components" None ;;
  debug CSettingsManager "Registering settings tab with Obsidian app" None ;;
  in_host addSettingTab ;;
  debug CSettingsManager "Settings manager fully initialized and ready for user interactions" None.

Definition getSettings (this : ManagerObj) : M World loc :=
  debug CSettingsManager "Retrieving current settings configuration" None ;;
  ret (sm_settings this).

(** The [newValue] of the closing info line: a string of more than 50
    code units is cut to its first 50, with an ellipsis. *)
Definition shown_value (value : jsval) : jsval :=
  match value with
  | VStr s =>
      if 50 <? JSString.length s
      then VStr (JSString.substring0 50 s +:+ "...")
      else value
  | _ => value
  end.

Definition updateSetting (this : ManagerObj) (key : Key) (value : jsval)
    : M World unit :=
  old <- in_host (get_field (sm_settings this) (key_name key)) ;;
  debug CSettingsManager ("Updating setting: " +:+ key_name key)
    (Some [("oldValue", old); ("newValue", value)]) ;;
  match key, value with
  | exampleSetting, VStr s =>
      when (100 <? JSString.length s)
        (warn CSettingsManager "Setting value exceeds recommended length"
           (Some [("key", VStr (key_name key));
                  ("length", VNum (JSString.length s));
                  ("maxRecommended", VNum 100)]))
  | _, _ => ret tt
  end ;;
  try_catch
    (in_host (set_field (sm_settings this) (key_name key) value) ;;
     ps <- plugin_settings ;;
     in_host (set_field ps (key_name key) value) ;;
     debug CSettingsManager "Persisting updated settings to storage" None ;;
     ps <- plugin_settings ;;
     in_host (saveData ps) ;;
     debug CSettingsManager "Setting update completed successfully" None ;;
     info CSettingsManager "Setting successfully updated"
       (Some [("key", VStr (key_name key)); ("newValue", shown_value value)]))
    (fun updateError =>
       error CSettingsManager "Failed to update plugin setting"
         (Some [("key", VStr (key_name key));
                ("error", describe updateError);
                ("attemptedValue", value)]) ;;
       throw updateError).

End SettingsManager.

(** ** The file event payload (the host's [TAbstractFile]) *)

Record TFile := mkTFile {
  path : string;
  name : string;
  extension : string;
  stat_size : Z;                 (** [file.stat.size] *)
  parent : option string         (** [file.parent?.path], [None] without parent *)
}.

Inductive TAbstractFile :=
| File (file : TFile)                      (** [file instanceof TFile] *)
| Folder (folder_path folder_name : string).

(** ** src/events/VaultEventHandler.ts *)
Module VaultEventHandler.

Definition initialize : M World unit :=
  debug CVaultEventHandler "Setting up vault event listeners - monitoring file system changes" None ;;
  debug CVaultEventHandler "Registering file creation event handler" None ;;
  in_host (registerEvent "create") ;;
  debug CVaultEventHandler "Registering file deletion event handler" None ;;
  in_host (registerEvent "delete") ;;
  debug CVaultEventHandler "Registering file rename event handler" None ;;
  in_host (registerEvent "rename") ;;
  debug CVaultEventHandler "Vault event handler fully initialized - all file system events monitored" None.

Definition cleanup : M World unit :=
  debug CVaultEventHandler "Cleaning up vault event handler - Obsidian will auto-unregister events" None.

(** [x || fallback] on strings *)
Definition or_else (x : option string) (fallback : string) : string :=
  match x with
  | Some s => if String.eqb s "" then fallback else s
  | None => fallback
  end.

Definition onFileCreate (file : TAbstractFile) : M World unit :=
  match file with
  | Folder _ _ => ret tt
  | File file =>
      debug CVaultEventHandler "Processing file creation event"
        (Some [("path", VStr (path file)); ("extension", VStr (extension file))]) ;;
      ps <- plugin_settings ;;
      enabled <- in_host (get_field ps "enableFeature") ;;
      if truthy enabled then
        debug CVaultEventHandler "Feature enabled - applying creation logic to new file" None ;;
        when (String.eqb (extension file) "md")
          (info CVaultEventHandler "New markdown file created"
             (Some [("path", VStr (path file));
                    ("parentFolder", VStr (or_else (parent file) "root"))])) ;;
        when (JSString.includes (name file) " ")
          (warn CVaultEventHandler "File created with spaces in name - may cause linking issues"
             (Some [("fileName", VStr (name file)); ("path", VStr (path file))])) ;;
        when (JSString.includes (path file) "/.temp/"
              || JSString.startsWith (name file) "temp_")
          (error CVaultEventHandler "File created in restricted location or with temp naming pattern"
             (Some [("path", VStr (path file));
                    ("pattern", VStr "temp files not allowed in this vault configuration")]))
      else
        debug CVaultEventHandler "Feature disabled - skipping creation logic" None
  end.

Definition onFileDelete (file : TAbstractFile) : M World unit :=
  match file with
  | Folder _ _ => ret tt
  | File file =>
      debug CVaultEventHandler "Processing file deletion event"
        (Some [("path", VStr (path file))]) ;;
      when (String.eqb (extension file) "md" && (10000 <? stat_size file))
        (info CVaultEventHandler "Large markdown file deleted"
           (Some [("path", VStr (path file));
                  ("sizeBytes", VNum (stat_size file));
                  ("sizeMB", VStr (JSString.toFixed2_MiB (stat_size file)))])) ;;
      when (JSString.startsWith (path file) "Important/"
            || JSString.includes (JSString.toLowerCase (name file)) "backup")
        (warn CVaultEventHandler "File deleted from important location or appears to be backup"
           (Some [("path", VStr (path file));
                  ("reason", VStr "deletion from protected area detected")]))
  end.

Definition onFileRename (file : TAbstractFile) (oldPath : string) : M World unit :=
  match file with
  | Folder _ _ => ret tt
  | File file =>
      debug CVaultEventHandler "Processing file rename event"
        (Some [("oldPath", VStr oldPath); ("newPath", VStr (path file))]) ;;
      let oldName := or_else (last (JSString.split "/" oldPath)) "" in
      let newName := name file in
      when (negb (String.eqb oldName newName))
        (info CVaultEventHandler "File renamed with name change"
           (Some [("oldName", VStr oldName); ("newName", VStr newName);
                  ("oldPath", VStr oldPath); ("newPath", VStr (path file))]) ;;
         when (JSString.includes oldName " " && negb (JSString.includes newName " "))
           (warn CVaultEventHandler "File renamed from spaced to non-spaced name - check for broken links"
              (Some [("oldName", VStr oldName); ("newName", VStr newName);
                     ("suggestion", VStr "run link update to fix references")])))
  end.

End VaultEventHandler.

(** ** src/main.ts *)
Module TemplatePlugin.

Definition DEFAULT_SETTINGS : gmap string jsval :=
  <["enableFeature" := VBool true]>
    (<["exampleSetting" := VStr "default value"]> ∅).

(** [onload]: on success, the fields assigned to the plugin object. *)
Definition onload : M Host Plugin :=
  debug CTemplatePlugin "Initializing logger system" None ;;
  initLogger ;;
  registerLoggerClass CTemplatePlugin "TemplatePlugin" ;;
  version <- (fun h => (Ret (manifest_version h), h)) ;;
  info CTemplatePlugin "Template Plugin starting initialization"
    (Some [("version", VStr version)]) ;;
  try_catch
    (debug CTemplatePlugin "Loading plugin settings from storage" None ;;
     target <- alloc ∅ ;;
     data <- loadData ;;
     loaded <- Object_assign target [Some DEFAULT_SETTINGS; data] ;;
     debug CTemplatePlugin "Creating settings manager and vault event handler instances" None ;;
     let this := mkPlugin loaded (SettingsManager.new loaded) in
     debug CTemplatePlugin "Registering components with logger for enhanced debugging" None ;;
     registerLoggerClass CSettingsManager "SettingsManager" ;;
     registerLoggerClass CVaultEventHandler "VaultEventHandler" ;;
     debug CTemplatePlugin "Initializing settings manager and event handler" None ;;
     r <- with_plugin this (SettingsManager.initialize (settingsManager this)) ;;
     r <- with_plugin (snd r) VaultEventHandler.initialize ;;
     let this := snd r in
     debug CTemplatePlugin "Adding ribbon icon for quick plugin access" None ;;
     addRibbonIcon "dice" "Template Plugin" ;;
     debug CTemplatePlugin "Registering template plugin command" None ;;
     addCommand "example-command" "Example Command" ;;
     info CTemplatePlugin "Template Plugin successfully loaded and ready"
       (Some [("settingsLoaded", VBool (truthy (VObj (settings this))));
              ("componentsInitialized", VBool true)]) ;;
     ret this)
    (fun initError =>
       error CTemplatePlugin "Failed to initialize Template Plugin"
         (Some [("error", describe initError); ("stack", stack_of initError)]) ;;
       throw initError).

(** [onunload], for the plugin [onload] has set up: its
    [vaultEventHandler] field holds the handler. *)
Definition onunload : M World unit :=
  debug CTemplatePlugin "Beginning plugin unload sequence" None ;;
  debug CTemplatePlugin "Cleaning up vault event handler resources" None ;;
  VaultEventHandler.cleanup ;;
  debug CTemplatePlugin "Plugin unload completed - all resources cleaned up" None.

Definition handleRibbonClick : M World unit :=
  debug CTemplatePlugin "Processing ribbon icon click" None ;;
  try_catch
    (ps <- plugin_settings ;;
     enabled <- in_host (get_field ps "enableFeature") ;;
     if negb (truthy enabled) then
       warn CTemplatePlugin "User clicked ribbon but feature is disabled"
         (Some [("featureEnabled", enabled)])
     else
       info CTemplatePlugin "Ribbon click processed successfully - feature is enabled" None)
    (fun ribbonError =>
       error CTemplatePlugin "Error handling ribbon click"
         (Some [("error", describe ribbonError)])).

(** The callback [onload] gives [addRibbonIcon]; [evt_type] is [evt.type]. *)
Definition ribbon_callback (evt_type : string) : M World unit :=
  debug CTemplatePlugin "User clicked ribbon icon" (Some [("mouseEvent", VStr evt_type)]) ;;
  handleRibbonClick.

(** [executeExampleCommand].  Modelled from the spec: the host's
    [this.app.workspace.getActiveFile()] is outside the sources; what it
    answers during the call is the parameter [activeFile], [None] for
    [null]. *)
Definition executeExampleCommand (activeFile : option TFile) : M World unit :=
  debug CTemplatePlugin "Executing example command with current settings" None ;;
  try_catch
    (match activeFile with
     | None =>
         warn CTemplatePlugin "No active file available for command execution"
           (Some [("workspace", VStr "no active file in workspace")])
     | Some file =>
         ps <- plugin_settings ;;
         enabled <- in_host (get_field ps "enableFeature") ;;
         info CTemplatePlugin "Example command executed successfully"
           (Some [("activeFile", VStr (path file));
                  ("fileExtension", VStr (extension file));
                  ("settingsEnabled", enabled)])
     end)
    (fun commandError =>
       error CTemplatePlugin "Failed to execute example command"
         (Some [("error", describe commandError);
                ("hasActiveFile", VBool (bool_decide (is_Some activeFile)))])).

(** The callback of the command [onload] registers. *)
Definition command_callback (activeFile : option TFile) : M World unit :=
  info CTemplatePlugin "User executed example command" None ;;
  executeExampleCommand activeFile.

End TemplatePlugin.

(** A host in which no plugin object has run: an empty store. *)
Definition fresh_host (d : option (gmap string jsval)) (p : list (option exn))
    (v : string) : Host :=
  mkHost ∅ d p v [].


(** ** What the claims observe *)

(** The object a reference points to. *)
Definition record_at (l : loc) (h : Host) : gmap string jsval :=
  default ∅ (heap h !! l).

(** The plugin's settings record, [this.plugin.settings]. *)
Definition settings_record (w : World) : gmap string jsval :=
  record_at (settings (plugin w)) (host w).

(** References do not dangle: the settings objects of the manager and of
    the plugin are in the store. *)
Definition well_formed (this : ManagerObj) (w : World) : Prop :=
  is_Some (heap (host w) !! sm_settings this) /\
  is_Some (heap (host w) !! settings (plugin w)).

(** The world with [out] added to the trace and nothing else changed. *)
Definition add_trace (out : list Event) (w : World) : World :=
  mkWorld (plugin w) (set_trace (trace (host w) ++ out) (host w)).

(** The next storage call succeeds. *)
Definition next_succeeds (h : Host) : Prop :=
  match pending h with
  | Some _ :: _ => False
  | _ => True
  end.

(** The next storage call raises [e]. *)
Definition next_raises (e : exn) (h : Host) : Prop :=
  match pending h with
  | Some e' :: _ => e' = e
  | _ => False
  end.

Definition is_log (e : Event) : bool :=
  match e with ELog _ _ _ _ => true | _ => false end.

Definition is_debug_log (e : Event) : bool :=
  match e with ELog Debug _ _ _ => true | _ => false end.

(** A world to probe a handler in: the settings record is [r], the trace
    is empty. *)
Definition probe (r : gmap string jsval) : World :=
  mkWorld (mkPlugin 1%positive (mkManager 1%positive))
          (mkHost {[ 1%positive := r ]} None [] "" []).

(** What a handler logs for the settings record [r]. *)
Definition lines (handler : M World unit) (r : gmap string jsval) : list Event :=
  trace (host (snd (handler (probe r)))).

(** The three callbacks [initialize] subscribes, for one event payload. *)
Definition handlers (file : TAbstractFile) (oldPath : string) : list (M World unit) :=
  [VaultEventHandler.onFileCreate file;
   VaultEventHandler.onFileDelete file;
   VaultEventHandler.onFileRename file oldPath].

(** The last segment of a path: [oldPath.split('/').pop() || ''] *)
Definition last_segment (p : string) : string :=
  VaultEventHandler.or_else (last (JSString.split "/" p)) "".

(** The store once [updateSetting] has written [value] under [key] through
    both of its references. *)
Definition store_after (this : ManagerObj) (key : Key) (value : jsval) (w : World)
    : gmap loc (gmap string jsval) :=
  alter (<[key_name key := value]>) (settings (plugin w))
    (alter (<[key_name key := value]>) (sm_settings this) (heap (host w))).

(** The warning of the soft validation, for the string [s]. *)
Definition length_warning (s : string) : Event :=
  ELog Warn CSettingsManager "Setting value exceeds recommended length"
    (Some [("key", VStr "exampleSetting");
           ("length", VNum (JSString.length s));
           ("maxRecommended", VNum 100)]).

(** The calls that reach the two components once the plugin is loaded: a
    change in the settings tab (its [onChange] calls
    [this.plugin.settingsManager.updateSetting]), a read of the settings, a
    vault event. *)
Inductive Op :=
| OpUpdateSetting (key : Key) (value : jsval)
| OpGetSettings
| OpFileCreate (file : TAbstractFile)
| OpFileDelete (file : TAbstractFile)
| OpFileRename (file : TAbstractFile) (oldPath : string).

(** The world after one operation; an error it throws goes to the host. *)
Definition exec (w : World) (o : Op) : World :=
  match o with
  | OpUpdateSetting key value =>
      snd (SettingsManager.updateSetting (settingsManager (plugin w)) key value w)
  | OpGetSettings => snd (SettingsManager.getSettings (settingsManager (plugin w)) w)
  | OpFileCreate file => snd (VaultEventHandler.onFileCreate file w)
  | OpFileDelete file => snd (VaultEventHandler.onFileDelete file w)
  | OpFileRename file oldPath => snd (VaultEventHandler.onFileRename file oldPath w)
  end.

Definition run (w : World) (ops : list Op) : World := foldl exec w ops.

(** A field that is there and holds something: [r[k] !== undefined]. *)
Definition has_field (r : gmap string jsval) (k : string) : Prop :=
  exists v, r !! k = Some v /\ v <> VUndefined.

(** The persisted blob is JSON: no property of it holds [undefined]. *)
Definition stored_defined (h : Host) : Prop :=
  forall o k v, disk h = Some o -> o !! k = Some v -> v <> VUndefined.

(** The operation passes no [undefined] for a setting (a value of the
    type the signature of [updateSetting] asks for never is). *)
Definition op_defined (o : Op) : Prop :=
  match o with
  | OpUpdateSetting _ value => value <> VUndefined
  | _ => True
  end.

(** The plugin as [onload] wires it: the manager and the plugin hold the
    same settings object, and it is in the store. *)
Definition wired (w : World) : Prop :=
  sm_settings (settingsManager (plugin w)) = settings (plugin w) /\
  is_Some (heap (host w) !! settings (plugin w)).

(** ** Sample inputs *)

(** A host whose storage holds the partial record [{enableFeature: false}]. *)
Definition sample_host : Host :=
  fresh_host (Some {[ "enableFeature" := VBool false ]}) [] "1.0.0".

(** The plugin [onload] sets up on it, and the host it leaves. *)
Definition sample_plugin : Plugin := mkPlugin 1%positive (mkManager 1%positive).
Definition sample_loaded : Host := Eval vm_compute in
  snd (TemplatePlugin.onload sample_host).
Definition sample_world : World := mkWorld sample_plugin sample_loaded.

(** The same world, with a host whose next storage call fails. *)
Definition disk_full : exn := ErrorObj "ENOSPC: no space left on device" VUndefined.
Definition failing_world : World :=
  mkWorld sample_plugin (set_pending [Some disk_full] sample_loaded).

Definition sample_file : TAbstractFile :=
  File (mkTFile "Important/My backup.md" "My backup.md" "md" 20000 (Some "Important")).

(** ['x'.repeat(101)] *)
Definition long_value : string := String.concat "" (replicate 101 "x").

Definition sample_ops : list Op :=
  [OpUpdateSetting exampleSetting (VStr long_value);
   OpFileCreate sample_file;
   OpUpdateSetting enableFeature (VBool true);
   OpGetSettings].

(** The sample world after a rename event, and then after a successful
    [updateSetting('exampleSetting', 'hello')]. *)
Definition renamed_ops : list Op := [OpFileRename sample_file "Important/Old name.md"].
Definition updated_world : World := Eval vm_compute in
  snd (SettingsManager.updateSetting
         (settingsManager (plugin (run sample_world renamed_ops)))
         exampleSetting (VStr "hello") (run sample_world renamed_ops)).

(** ** What the further properties observe *)

(** The code unit [c] occurs in [s]. *)
Fixpoint has_unit (c : ascii) (s : string) : bool :=
  match s with
  | EmptyString => false
  | String c' s' => Ascii.eqb c' c || has_unit c s'
  end.

(** The objects handed to the host's save call, in order. *)
Definition saves (out : list Event) : list (gmap string jsval) :=
  omap (fun e => match e with ESaveData d => Some d | _ => None end) out.

(** The levels of the log calls, in order. *)
Definition levels (out : list Event) : list Level :=
  omap (fun e => match e with ELog lvl _ _ _ => Some lvl | _ => None end) out.

(** The calls into the host and the logger set-up, without the log lines. *)
Definition host_calls (out : list Event) : list Event :=
  List.filter (fun e => negb (is_log e)) out.

(** The soft validation of [updateSetting] fires. *)
Definition too_long (key : Key) (value : jsval) : bool :=
  match key, value with
  | exampleSetting, VStr s => 100 <? JSString.length s
  | _, _ => false
  end.

(** The line [updateSetting] logs when the save call has raised [e]. *)
Definition update_failure_line (key : Key) (value : jsval) (e : exn) : Event :=
  ELog Error CSettingsManager "Failed to update plugin setting"
    (Some [("key", VStr (key_name key)); ("error", describe e);
           ("attemptedValue", value)]).

(** The line [updateSetting] logs last when the save call has succeeded. *)
Definition update_success_line (key : Key) (value : jsval) : Event :=
  ELog Info CSettingsManager "Setting successfully updated"
    (Some [("key", VStr (key_name key));
           ("newValue", SettingsManager.shown_value value)]).

(** The callbacks the plugin leaves with the host besides the settings
    tab: the vault events, the ribbon icon, the command, unloading. *)
Definition logging_callbacks (file : TAbstractFile) (oldPath evt : string)
    (activeFile : option TFile) : list (M World unit) :=
  (handlers file oldPath ++
   [TemplatePlugin.ribbon_callback evt;
    TemplatePlugin.command_callback activeFile;
    TemplatePlugin.onunload;
    VaultEventHandler.cleanup])%list.

(** What [onload] logs last when loading has raised [e]. *)
Definition onload_failure_line (e : exn) : Event :=
  ELog Error CTemplatePlugin "Failed to initialize Template Plugin"
    (Some [("error", describe e); ("stack", stack_of e)]).

(** The calls [onload] makes into the logger set-up and the host when it
    goes through. *)
Definition onload_host_calls : list Event :=
  [EInitLogger;
   ERegisterLoggerClass CTemplatePlugin "TemplatePlugin";
   ELoadData;
   ERegisterLoggerClass CSettingsManager "SettingsManager";
   ERegisterLoggerClass CVaultEventHandler "VaultEventHandler";
   EAddSettingTab;
   ERegisterEvent "create";
   ERegisterEvent "delete";
   ERegisterEvent "rename";
   EAddRibbonIcon "dice" "Template Plugin";
   EAddCommand "example-command" "Example Command"].

(** The line [onFileCreate] logs for a file in a restricted place. *)
Definition restricted_line (f : TFile) : Event :=
  ELog Error CVaultEventHandler
    "File created in restricted location or with temp naming pattern"
    (Some [("path", VStr (path f));
           ("pattern", VStr "temp files not allowed in this vault configuration")]).

(** A file of the sample vault, one whose name shouts, and one in a
    [.temp] folder below another folder. *)
Definition sample_tfile : TFile :=
  mkTFile "Important/My backup.md" "My backup.md" "md" 20000 (Some "Important").
Definition shouting_tfile : TFile :=
  mkTFile "Archive/BACKUP-2024.zip" "BACKUP-2024.zip" "zip" 512 (Some "Archive").
Definition nested_temp_tfile : TFile :=
  mkTFile "notes/.temp/draft.md" "draft.md" "md" 12 (Some "notes/.temp").

(** The sample world once the feature has been switched on. *)
Definition enabled_world : World := Eval vm_compute in
  exec sample_world (OpUpdateSetting enableFeature (VBool true)).

(** A host whose storage holds a field the plugin does not know, and the
    host [onload] leaves of it. *)
Definition legacy_host : Host :=
  fresh_host (Some {[ "legacyOption" := VNum 3 ]}) [] "1.0.0".
Definition legacy_loaded : Host := Eval vm_compute in
  snd (TemplatePlugin.onload legacy_host).

(** The sample host when its storage cannot be read. *)
Definition unreadable_host : Host :=
  fresh_host (Some {[ "enableFeature" := VBool false ]})
    [Some (NonError "EACCES")] "1.0.0".

(** Decide the conditions of the [if]s met on the way, run both sides and
    compare the traces. *)
Ltac split_guards :=
  unfold when;
  repeat (match goal with
          | |- context [if ?c then _ else _] => destruct c
          end; cbv beta iota).

Ltac same_trace :=
  cbn; unfold add_trace, set_trace; cbn; rewrite <- ?app_assoc; reflexivity.

(** ** Vault event handlers *)

Lemma add_trace_nil w : add_trace [] w = w.
Proof.
  destruct w as [p [hp d pe mv t]]. unfold add_trace, set_trace. cbn.
  by rewrite app_nil_r.
Qed.

Lemma onFileCreate_lines file w :
  VaultEventHandler.onFileCreate file w =
  (Ret tt, add_trace (lines (VaultEventHandler.onFileCreate file) (settings_record w)) w).
Proof.
  destruct file as [f|]; [|by rewrite add_trace_nil].
  unfold lines, settings_record, record_at, VaultEventHandler.onFileCreate.
  cbn -[truthy prop]. rewrite lookup_singleton_eq. cbn [default].
  destruct (truthy _); split_guards; same_trace.
Qed.

Lemma onFileDelete_lines file r w :
  VaultEventHandler.onFileDelete file w =
  (Ret tt, add_trace (lines (VaultEventHandler.onFileDelete file) r) w).
Proof.
  destruct file as [f|]; [|by rewrite add_trace_nil].
  unfold lines, VaultEventHandler.onFileDelete. cbn.
  split_guards. all: same_trace.
Qed.

Lemma onFileRename_lines file oldPath r w :
  VaultEventHandler.onFileRename file oldPath w =
  (Ret tt, add_trace (lines (VaultEventHandler.onFileRename file oldPath) r) w).
Proof.
  destruct file as [f|]; [|by rewrite add_trace_nil].
  unfold lines, VaultEventHandler.onFileRename. cbn.
  split_guards. all: same_trace.
Qed.

Lemma settings_record_add_trace out w :
  settings_record (add_trace out w) = settings_record w.
Proof. reflexivity. Qed.

Lemma handler_lines file oldPath handler w :
  handler ∈ handlers file oldPath ->
  handler w = (Ret tt, add_trace (lines handler (settings_record w)) w).
Proof.
  unfold handlers. intros Hin.
  apply elem_of_cons in Hin as [->|Hin]; [apply onFileCreate_lines|].
  apply elem_of_cons in Hin as [->|Hin]; [apply onFileDelete_lines|].
  apply elem_of_cons in Hin as [->|Hin]; [apply onFileRename_lines|].
  by apply elem_of_nil in Hin.
Qed.

Lemma handler_lines_are_logs file oldPath handler r :
  handler ∈ handlers file oldPath ->
  forallb is_log (lines handler r) = true.
Proof.
  unfold handlers. intros Hin.
  apply elem_of_cons in Hin as [->|Hin];
    [|apply elem_of_cons in Hin as [->|Hin];
      [|apply elem_of_cons in Hin as [->|Hin]; [|by apply elem_of_nil in Hin]]].
  all: destruct file as [f|]; [|reflexivity]; unfold lines.
  - unfold VaultEventHandler.onFileCreate. cbn -[truthy prop].
    destruct (truthy _); split_guards; reflexivity.
  - unfold VaultEventHandler.onFileDelete. cbn. split_guards; reflexivity.
  - unfold VaultEventHandler.onFileRename. cbn. split_guards; reflexivity.
Qed.

(** C9. Every vault event handler first tests [file instanceof TFile]: for
    a payload that is not a regular file (a folder), [onFileCreate],
    [onFileDelete] and [onFileRename] return at once, log nothing and leave
    the world as it was. *)
Theorem handlers_ignore_folders folder_path folder_name oldPath w :
  VaultEventHandler.onFileCreate (Folder folder_path folder_name) w = (Ret tt, w) /\
  VaultEventHandler.onFileDelete (Folder folder_path folder_name) w = (Ret tt, w) /\
  VaultEventHandler.onFileRename (Folder folder_path folder_name) oldPath w = (Ret tt, w).
Proof. repeat split. Qed.

(** C5. Every vault event handler is stateless and deterministic per event:
    in two worlds with the same settings record, a handler run on the same
    payload returns normally and adds the same lines [out] to the log; run
    again right after itself, it adds the same lines once more. *)
Theorem handlers_stateless file oldPath handler w1 w2 :
  handler ∈ handlers file oldPath ->
  settings_record w1 = settings_record w2 ->
  exists out,
    handler w1 = (Ret tt, add_trace out w1) /\
    handler w2 = (Ret tt, add_trace out w2) /\
    handler (add_trace out w1) = (Ret tt, add_trace out (add_trace out w1)).
Proof.
  intros Hin Hsame. exists (lines handler (settings_record w1)).
  split; [by apply (handler_lines file oldPath)|].
  split.
  - rewrite Hsame. by apply (handler_lines file oldPath).
  - rewrite (handler_lines file oldPath handler (add_trace _ w1) Hin).
    by rewrite settings_record_add_trace.
Qed.

(** C6. No vault event handler changes plugin state: a handler returns
    normally, and afterwards the plugin fields, the object store (so the
    settings record), the host storage and the pending storage outcomes are
    what they were; only log lines were added to the trace. *)
Theorem handlers_change_no_state file oldPath handler w :
  handler ∈ handlers file oldPath ->
  exists out w',
    handler w = (Ret tt, w') /\
    plugin w' = plugin w /\
    heap (host w') = heap (host w) /\
    settings_record w' = settings_record w /\
    disk (host w') = disk (host w) /\
    pending (host w') = pending (host w) /\
    manifest_version (host w') = manifest_version (host w) /\
    trace (host w') = (trace (host w) ++ out)%list /\
    forallb is_log out = true.
Proof.
  intros Hin. exists (lines handler (settings_record w)), (add_trace (lines handler (settings_record w)) w).
  split; [by apply (handler_lines file oldPath)|].
  repeat (split; [reflexivity|]).
  by apply (handler_lines_are_logs file oldPath).
Qed.

(** C10. The [enableFeature] flag gates only the create handler: when the
    flag is false (or anything [if] takes for false) [onFileCreate] logs
    debug lines only, for every payload; [onFileDelete] and [onFileRename]
    log the same lines in every world, whatever the flag, and these hold
    the large-markdown info line, the important-location warning and the
    name-change info line whenever the file's attributes call for them. *)
Theorem enableFeature_gates_create_only file oldPath w :
  (truthy (prop (settings_record w) "enableFeature") = false ->
   exists out,
     VaultEventHandler.onFileCreate file w = (Ret tt, add_trace out w) /\
     forallb is_debug_log out = true) /\
  (exists out,
     (forall w', VaultEventHandler.onFileDelete file w' = (Ret tt, add_trace out w')) /\
     forall f, file = File f ->
       ((extension f = "md" /\ 10000 < stat_size f) ->
        ELog Info CVaultEventHandler "Large markdown file deleted"
          (Some [("path", VStr (path f));
                 ("sizeBytes", VNum (stat_size f));
                 ("sizeMB", VStr (JSString.toFixed2_MiB (stat_size f)))]) ∈ out) /\
       (JSString.startsWith (path f) "Important/"
        || JSString.includes (JSString.toLowerCase (name f)) "backup" = true ->
        ELog Warn CVaultEventHandler
          "File deleted from important location or appears to be backup"
          (Some [("path", VStr (path f));
                 ("reason", VStr "deletion from protected area detected")]) ∈ out)) /\
  (exists out,
     (forall w', VaultEventHandler.onFileRename file oldPath w' = (Ret tt, add_trace out w')) /\
     forall f, file = File f ->
       last_segment oldPath <> name f ->
       ELog Info CVaultEventHandler "File renamed with name change"
         (Some [("oldName", VStr (last_segment oldPath)); ("newName", VStr (name f));
                ("oldPath", VStr oldPath); ("newPath", VStr (path f))]) ∈ out).
Proof.
  split; [|split].
  - intros Hoff. eexists. split; [apply onFileCreate_lines|].
    destruct file as [f|]; [|reflexivity].
    unfold lines, VaultEventHandler.onFileCreate. cbn -[truthy prop settings_record].
    rewrite lookup_singleton_eq. cbn [default from_option id]. by rewrite Hoff.
  - exists (lines (VaultEventHandler.onFileDelete file) ∅).
    split; [intros w'; apply onFileDelete_lines|].
    intros f ->. unfold lines, VaultEventHandler.onFileDelete. split.
    + intros [Hmd Hbig]. rewrite Hmd. apply Z.ltb_lt in Hbig. rewrite Hbig.
      cbn -[JSString.toFixed2_MiB]. split_guards; cbn -[JSString.toFixed2_MiB]; set_solver.
    + intros Hwarn. rewrite Hwarn. cbn -[JSString.toFixed2_MiB].
      split_guards; cbn -[JSString.toFixed2_MiB]; set_solver.
  - exists (lines (VaultEventHandler.onFileRename file oldPath) ∅).
    split; [intros w'; apply onFileRename_lines|].
    intros f -> Hne. unfold lines, VaultEventHandler.onFileRename.
    fold (last_segment oldPath).
    apply String.eqb_neq in Hne. rewrite Hne.
    cbn. split_guards; cbn; set_solver.
Qed.

(** ** The settings manager *)

Lemma store_after_lookup this key value w l :
  store_after this key value w !! l =
  if decide (l = settings (plugin w) \/ l = sm_settings this)
  then <[key_name key := value]> <$> heap (host w) !! l
  else heap (host w) !! l.
Proof.
  unfold store_after.
  destruct (decide (l = settings (plugin w))) as [->|Hp].
  - rewrite decide_True by auto. rewrite lookup_alter_eq.
    destruct (decide (settings (plugin w) = sm_settings this)) as [->|Hm].
    + rewrite lookup_alter_eq. destruct (heap (host w) !! sm_settings this); [|done].
      cbn. by rewrite insert_insert_eq.
    + by rewrite lookup_alter_ne.
  - rewrite lookup_alter_ne by done.
    destruct (decide (l = sm_settings this)) as [->|Hm].
    + rewrite decide_True by auto. by rewrite lookup_alter_eq.
    + rewrite decide_False by tauto. by rewrite lookup_alter_ne.
Qed.

Lemma store_after_record this key value w l :
  is_Some (heap (host w) !! l) ->
  l = settings (plugin w) \/ l = sm_settings this ->
  default ∅ (store_after this key value w !! l) =
  <[key_name key := value]> (record_at l (host w)).
Proof.
  intros [r Hr] Hl. rewrite store_after_lookup, decide_True by done.
  unfold record_at. by rewrite Hr.
Qed.

Lemma store_after_other_field this key value w l k' :
  k' <> key_name key ->
  default ∅ (store_after this key value w !! l) !! k' = record_at l (host w) !! k'.
Proof.
  intros Hk. rewrite store_after_lookup. unfold record_at.
  case_decide; [|done].
  destruct (heap (host w) !! l); [|done]. cbn. by rewrite lookup_insert_ne.
Qed.

(** One run of [updateSetting], on either outcome of the storage call. *)
Lemma updateSetting_run this key value w :
  let hp := store_after this key value w in
  let content := default ∅ (hp !! settings (plugin w)) in
  exists out,
    ESaveData content ∈ out /\
    (forall s, key = exampleSetting -> value = VStr s -> 100 < JSString.length s ->
               length_warning s ∈ out) /\
    SettingsManager.updateSetting this key value w =
      match pending (host w) with
      | Some e :: rest =>
          (Throw e,
           mkWorld (plugin w)
             (mkHost hp (disk (host w)) rest (manifest_version (host w))
                (trace (host w) ++ out)))
      | _ =>
          (Ret tt,
           mkWorld (plugin w)
             (mkHost hp (Some content) (tail (pending (host w)))
                (manifest_version (host w)) (trace (host w) ++ out)))
      end.
Proof.
  intros hp content. subst hp content. unfold store_after.
  unfold SettingsManager.updateSetting.
  destruct w as [p [hp d pe mv t]].
  cbn [host plugin pending heap disk manifest_version trace].
  destruct pe as [|[e|] rest].
  all: destruct key;
    [|destruct value as [| |b|n|s|l];
      [| | | |destruct (100 <? JSString.length s) eqn:Hlen|]].
  all: eexists; split; [|split].
  all: try (cbn -[SettingsManager.shown_value prop];
            rewrite <- ?app_assoc; reflexivity).
  all: try (intros; congruence).
  all: try (cbn; set_solver).
  all: intros s0 _ [= <-] Hlt; apply Z.ltb_ge in Hlen; lia.
Qed.

(** C4. A successful [updateSetting(k, v)] mutates exactly the one field
    [k], in the plugin's settings record and in the manager's: each record
    is the old one with [k] set to [v], so every other field keeps its
    value, and every other object of the store is untouched.  The whole
    record is then handed to the host's save call and becomes the
    persisted blob. *)
Theorem updateSetting_mutates_one_field_and_persists this key value w :
  well_formed this w ->
  next_succeeds (host w) ->
  exists out w',
    SettingsManager.updateSetting this key value w = (Ret tt, w') /\
    plugin w' = plugin w /\
    settings_record w' = <[key_name key := value]> (settings_record w) /\
    record_at (sm_settings this) (host w') =
      <[key_name key := value]> (record_at (sm_settings this) (host w)) /\
    (forall l k', k' <> key_name key ->
                  record_at l (host w') !! k' = record_at l (host w) !! k') /\
    (forall l, l <> settings (plugin w) -> l <> sm_settings this ->
               heap (host w') !! l = heap (host w) !! l) /\
    trace (host w') = (trace (host w) ++ out)%list /\
    ESaveData (settings_record w') ∈ out /\
    disk (host w') = Some (settings_record w').
Proof.
  intros [Hm Hp] Hok.
  destruct (updateSetting_run this key value w) as (out & Hsave & _ & Hrun).
  exists out,
    (mkWorld (plugin w)
       (mkHost (store_after this key value w)
          (Some (default ∅ (store_after this key value w !! settings (plugin w))))
          (tail (pending (host w))) (manifest_version (host w))
          (trace (host w) ++ out))).
  split.
  { rewrite Hrun. unfold next_succeeds in Hok.
    destruct (pending (host w)) as [|[e|] rest]; [reflexivity|done|reflexivity]. }
  unfold settings_record, record_at at 1 3. cbn.
  repeat split; try done.
  - apply store_after_record; auto.
  - apply store_after_record; auto.
  - intros l k' Hk. by apply store_after_other_field.
  - intros l Hl1 Hl2. rewrite store_after_lookup. by rewrite decide_False by tauto.
Qed.

(** C1. When the host's save call raises inside [updateSetting], the same
    error comes out of [updateSetting], and the in-memory records keep the
    value just written: there is no rollback, and the persisted blob stays
    what it was. *)
Theorem updateSetting_rethrows_without_rollback this key value w e :
  well_formed this w ->
  next_raises e (host w) ->
  exists w',
    SettingsManager.updateSetting this key value w = (Throw e, w') /\
    settings_record w' !! key_name key = Some value /\
    record_at (sm_settings this) (host w') !! key_name key = Some value /\
    disk (host w') = disk (host w).
Proof.
  intros [Hm Hp] Hraise.
  destruct (updateSetting_run this key value w) as (out & _ & _ & Hrun).
  unfold next_raises in Hraise.
  destruct (pending (host w)) as [|[e'|] rest]; [done| |done]. subst e'.
  eexists. split; [exact Hrun|].
  unfold settings_record, record_at. cbn.
  rewrite !store_after_record by auto.
  by rewrite !lookup_insert_eq.
Qed.

(** C3. For a string of more than 100 code units,
    [updateSetting('exampleSetting', value)] logs the length warning and
    goes on with the update all the same: both in-memory records get the
    value, the whole record is handed to the host's save call, and it is
    the persisted blob whenever that call succeeds. *)
Theorem updateSetting_long_value_warns_and_applies this s w :
  well_formed this w ->
  100 < JSString.length s ->
  exists r w' out,
    SettingsManager.updateSetting this exampleSetting (VStr s) w = (r, w') /\
    trace (host w') = (trace (host w) ++ out)%list /\
    length_warning s ∈ out /\
    settings_record w' !! "exampleSetting" = Some (VStr s) /\
    record_at (sm_settings this) (host w') !! "exampleSetting" = Some (VStr s) /\
    ESaveData (settings_record w') ∈ out /\
    (next_succeeds (host w) ->
     r = Ret tt /\ disk (host w') = Some (settings_record w')).
Proof.
  intros [Hm Hp] Hlong.
  destruct (updateSetting_run this exampleSetting (VStr s) w)
    as (out & Hsave & Hwarn & Hrun).
  specialize (Hwarn s eq_refl eq_refl Hlong).
  unfold next_succeeds.
  destruct (pending (host w)) as [|[e|] rest];
    (do 2 eexists); exists out; (split; [exact Hrun|]);
    unfold settings_record, record_at; cbn;
    rewrite !store_after_record by auto;
    rewrite !lookup_insert_eq; repeat split; try done.
  all: by rewrite store_after_record in Hsave by auto.
Qed.

(** ** Loading *)

Lemma typed_value_defined key value : typed_value key value -> value <> VUndefined.
Proof. by destruct key, value. Qed.

(** Traces grow at the end: [((t ++ [e1]) ++ [e2]) ++ ...] is [t] followed
    by what was added. *)
Lemma trace_base (t : list Event) : t = (t ++ [])%list.
Proof. by rewrite app_nil_r. Qed.

Lemma trace_step (t l out : list Event) (e : Event) :
  l = (t ++ out)%list -> (l ++ [e])%list = (t ++ (out ++ [e]))%list.
Proof. intros ->. by rewrite app_assoc. Qed.

Lemma host_result_eq {A} (r : Res A) hp d pe mv (tr tr' : list Event) :
  tr = tr' -> (r, mkHost hp d pe mv tr) = (r, mkHost hp d pe mv tr').
Proof. by intros ->. Qed.

Ltac grown_trace := repeat apply trace_step; apply trace_base.

(** One run of [onload] when the storage call succeeds. *)
Lemma onload_run h :
  next_succeeds h ->
  let l := fresh (dom (heap h)) in
  exists out,
    TemplatePlugin.onload h =
    (Ret (mkPlugin l (mkManager l)),
     mkHost (<[l := match disk h with
                    | Some o => o ∪ TemplatePlugin.DEFAULT_SETTINGS
                    | None => TemplatePlugin.DEFAULT_SETTINGS
                    end]> (heap h))
            (disk h) (tail (pending h)) (manifest_version h) (trace h ++ out)).
Proof.
  intros Hok l. subst l. unfold next_succeeds in Hok.
  destruct h as [hp d pe mv t]. cbn [pending heap disk manifest_version trace] in *.
  assert (Hunion : TemplatePlugin.DEFAULT_SETTINGS ∪ (∅ : gmap string jsval)
                   = TemplatePlugin.DEFAULT_SETTINGS) by apply (right_id_L ∅ (∪)).
  destruct pe as [|[e|] rest]; [|done|].
  all: eexists; unfold TemplatePlugin.onload.
  all: cbn -[TemplatePlugin.DEFAULT_SETTINGS fresh dom insert alter union].
  all: match goal with
       | |- context [alter ?f ?l (<[?l := ?e]> ?m)] =>
           set (X := alter f l (<[l := e]> m));
           assert (HX : X = <[l := match d with
                    | Some o => o ∪ TemplatePlugin.DEFAULT_SETTINGS
                    | None => TemplatePlugin.DEFAULT_SETTINGS
                    end]> m)
             by (subst X; rewrite alter_insert_eq, Hunion; by destruct d);
           clearbody X; subst X
       end.
  all: apply host_result_eq; grown_trace.
Qed.

(** C2. Loading overlays the persisted data on the defaults.  When the
    storage call succeeds [onload] returns, and the settings record it has
    built is the default record
    [{enableFeature: true, exampleSetting: "default value"}] when nothing
    was persisted; with a persisted record, every field present in it has
    its persisted value and every other field its default. *)
Theorem onload_overlays_persisted_on_defaults h :
  next_succeeds h ->
  exists p h',
    TemplatePlugin.onload h = (Ret p, h') /\
    (disk h = None ->
     record_at (settings p) h' =
       <["enableFeature" := VBool true]>
         (<["exampleSetting" := VStr "default value"]> ∅)) /\
    (forall persisted, disk h = Some persisted ->
       forall k,
         record_at (settings p) h' !! k =
         match persisted !! k with
         | Some v => Some v
         | None => TemplatePlugin.DEFAULT_SETTINGS !! k
         end).
Proof.
  intros Hok. destruct (onload_run h Hok) as [out Hrun].
  do 2 eexists. split; [exact Hrun|].
  unfold record_at. cbn [heap settings]. rewrite lookup_insert_eq. cbn [default from_option id].
  split.
  - by intros ->.
  - intros persisted -> k. rewrite lookup_union.
    destruct (persisted !! k), (TemplatePlugin.DEFAULT_SETTINGS !! k); reflexivity.
Qed.

(** ** After loading *)

Lemma onload_returns_only_on_success h p h' :
  TemplatePlugin.onload h = (Ret p, h') -> next_succeeds h.
Proof.
  unfold next_succeeds. destruct h as [hp d pe mv t]. cbn [pending].
  destruct pe as [|[e|] rest]; [done| |done].
  unfold TemplatePlugin.onload. cbn -[fresh dom insert alter union]. discriminate.
Qed.

Lemma onload_wired h p h' :
  TemplatePlugin.onload h = (Ret p, h') -> wired (mkWorld p h').
Proof.
  intros Hrun. pose proof (onload_returns_only_on_success _ _ _ Hrun) as Hok.
  destruct (onload_run h Hok) as [out Hrun']. rewrite Hrun' in Hrun.
  injection Hrun as <- <-. unfold wired. cbn.
  split; [done|by rewrite lookup_insert_eq].
Qed.

Lemma onload_fields h p h' :
  TemplatePlugin.onload h = (Ret p, h') ->
  stored_defined h ->
  has_field (settings_record (mkWorld p h')) "enableFeature" /\
  has_field (settings_record (mkWorld p h')) "exampleSetting".
Proof.
  intros Hrun Hjson. pose proof (onload_returns_only_on_success _ _ _ Hrun) as Hok.
  destruct (onload_run h Hok) as [out Hrun']. rewrite Hrun' in Hrun.
  injection Hrun as <- <-.
  unfold settings_record, record_at. cbn [plugin host heap settings].
  rewrite lookup_insert_eq. cbn [default from_option id]. unfold has_field.
  destruct (disk h) as [persisted|] eqn:Hd.
  - rewrite !lookup_union. split.
    + destruct (persisted !! "enableFeature") as [v|] eqn:Hv.
      * exists v. split; [done|]. by apply (Hjson persisted "enableFeature").
      * by exists (VBool true).
    + destruct (persisted !! "exampleSetting") as [v|] eqn:Hv.
      * exists v. split; [done|]. by apply (Hjson persisted "exampleSetting").
      * by exists (VStr "default value").
  - split.
    + by exists (VBool true).
    + by exists (VStr "default value").
Qed.

Lemma getSettings_run this w :
  SettingsManager.getSettings this w =
  (Ret (sm_settings this),
   add_trace [ELog Debug CSettingsManager "Retrieving current settings configuration" None] w).
Proof. reflexivity. Qed.

(** What an operation does to the plugin fields and to the settings
    record, in a wired world, whether the storage call succeeds or not. *)
Lemma exec_settings_record w o :
  wired w ->
  plugin (exec w o) = plugin w /\
  is_Some (heap (host (exec w o)) !! settings (plugin w)) /\
  settings_record (exec w o) =
    match o with
    | OpUpdateSetting key value => <[key_name key := value]> (settings_record w)
    | _ => settings_record w
    end.
Proof.
  intros [Hsame Hin]. destruct o as [key value| |file|file|file oldPath]; cbn [exec].
  - destruct (updateSetting_run (settingsManager (plugin w)) key value w)
      as (out & _ & _ & Hrun).
    rewrite Hrun.
    assert (Hrec : default ∅ (store_after (settingsManager (plugin w)) key value w
                                !! settings (plugin w))
                   = <[key_name key := value]> (settings_record w))
      by (apply store_after_record; auto).
    assert (Hsome : is_Some (store_after (settingsManager (plugin w)) key value w
                               !! settings (plugin w))).
    { rewrite store_after_lookup, decide_True by auto.
      destruct Hin as [r ->]. by eexists. }
    destruct (pending (host w)) as [|[e|] rest]; cbn; unfold settings_record, record_at; cbn; auto.
  - rewrite getSettings_run. cbn. auto.
  - rewrite onFileCreate_lines. cbn. auto.
  - rewrite (onFileDelete_lines file ∅). cbn. auto.
  - rewrite (onFileRename_lines file oldPath ∅). cbn. auto.
Qed.

Lemma exec_wired w o : wired w -> wired (exec w o).
Proof.
  intros Hw. destruct (exec_settings_record w o Hw) as (Hp & Hin & _).
  destruct Hw as [Hsame _]. unfold wired. rewrite Hp. auto.
Qed.

Lemma run_wired ops w : wired w -> wired (run w ops).
Proof.
  revert w. induction ops as [|o ops IH]; intros w Hw; [done|].
  cbn. apply IH. by apply exec_wired.
Qed.

Lemma loaded_well_formed h p h' :
  TemplatePlugin.onload h = (Ret p, h') ->
  forall w, plugin w = p -> heap (host w) = heap h' ->
  well_formed (settingsManager p) w.
Proof.
  intros Hload w <- Hheap. destruct (onload_wired _ _ _ Hload) as [Hsame Hin].
  cbn [plugin host] in *. unfold well_formed. rewrite Hsame, Hheap. auto.
Qed.

Lemma has_field_insert r k k' v :
  v <> VUndefined -> has_field r k -> has_field (<[k' := v]> r) k.
Proof.
  intros Hv (x & Hx & Hdef). unfold has_field.
  destruct (decide (k' = k)) as [->|Hne].
  - exists v. by rewrite lookup_insert_eq.
  - exists x. by rewrite lookup_insert_ne.
Qed.

(** C7. After [onload] has returned, and after any sequence of settings
    updates, settings reads and vault events, the settings record has both
    fields, [enableFeature] and [exampleSetting], each holding a value:
    defaulting puts them there, and [updateSetting] only ever writes over a
    field.  No operation, whatever its arguments, takes a field away: the
    fields of the record before are fields of the record after. *)
Theorem settings_record_keeps_both_fields h p h' ops :
  TemplatePlugin.onload h = (Ret p, h') ->
  stored_defined h ->
  Forall op_defined ops ->
  let w := run (mkWorld p h') ops in
  has_field (settings_record w) "enableFeature" /\
  has_field (settings_record w) "exampleSetting" /\
  forall o, dom (settings_record w) ⊆ dom (settings_record (exec w o)).
Proof.
  intros Hload Hjson Hops w. subst w.
  pose proof (onload_wired _ _ _ Hload) as Hw.
  pose proof (onload_fields _ _ _ Hload Hjson) as Hf.
  revert Hw Hf. generalize (mkWorld p h'). clear Hload Hjson.
  induction Hops as [|o ops Ho Hops IH]; intros w Hw [Hf1 Hf2].
  - cbn. repeat split; try done.
    intros o. destruct (exec_settings_record w o Hw) as (_ & _ & ->).
    destruct o; try done. rewrite dom_insert. set_solver.
  - cbn. apply IH; [by apply exec_wired|].
    destruct (exec_settings_record w o Hw) as (_ & _ & ->).
    destruct o; try done. cbn in Ho. split; by apply has_field_insert.
Qed.

(** C8. [getSettings()] returns the current in-memory settings record.  In
    the plugin as [onload] wires it, after any sequence of operations, once
    [updateSetting(k, v)] has succeeded [getSettings()] returns a record
    whose field [k] is [v]; that record is the plugin's own [settings]
    object, so the two agree on every field. *)
Theorem getSettings_returns_current_record h p h' ops key value w1 :
  TemplatePlugin.onload h = (Ret p, h') ->
  let w := run (mkWorld p h') ops in
  SettingsManager.updateSetting (settingsManager (plugin w)) key value w = (Ret tt, w1) ->
  exists l w2,
    SettingsManager.getSettings (settingsManager (plugin w1)) w1 = (Ret l, w2) /\
    record_at l (host w2) !! key_name key = Some value /\
    l = settings (plugin w2) /\
    record_at l (host w2) = settings_record w2.
Proof.
  intros Hload w Hupd.
  assert (Hw : wired w) by (apply run_wired; by apply (onload_wired h)).
  destruct (exec_settings_record w (OpUpdateSetting key value) Hw) as (Hp & _ & Hrec).
  cbn [exec] in Hp, Hrec. rewrite Hupd in Hp, Hrec. cbn [snd] in Hp, Hrec.
  destruct Hw as [Hsame _].
  do 2 eexists. split; [apply getSettings_run|].
  change (record_at ?l (host (add_trace ?out ?w))) with (record_at l (host w)).
  change (settings_record (add_trace ?out ?w)) with (settings_record w).
  change (plugin (add_trace ?out ?w)) with (plugin w).
  unfold settings_record in *. rewrite Hp in *. rewrite Hsame, Hrec.
  by rewrite lookup_insert_eq.
Qed.

(** ** Further properties *)

Lemma split_not_nil sep s : JSString.split sep s <> [].
Proof.
  destruct s as [|c s]; cbn; [done|].
  destruct (Ascii.eqb c sep); [done|]. by destruct (JSString.split sep s).
Qed.

Lemma split_without_separator sep s :
  has_unit sep s = false -> JSString.split sep s = [s].
Proof.
  induction s as [|c s IH]; cbn; [done|].
  destruct (Ascii.eqb c sep); [done|]. cbn. intros Hs. by rewrite IH.
Qed.

Lemma last_cons_not_nil {A} (x : A) l : l <> [] -> last (x :: l) = last l.
Proof. by destruct l. Qed.

Lemma split_last_after_separator sep d n :
  last (JSString.split sep (d +:+ String sep n)) = last (JSString.split sep n)
  /\ (2 <= length (JSString.split sep (d +:+ String sep n)))%nat.
Proof.
  induction d as [|c d [IH1 IH2]].
  - change ("" +:+ String sep n) with (String sep n). cbn.
    rewrite Ascii.eqb_refl. split.
    + apply last_cons_not_nil, split_not_nil.
    + cbn. pose proof (split_not_nil sep n). destruct (JSString.split sep n); [done|cbn; lia].
  - change (String c d +:+ String sep n) with (String c (d +:+ String sep n)). cbn.
    destruct (Ascii.eqb c sep).
    + split; [|cbn; lia]. rewrite last_cons_not_nil; [done|apply split_not_nil].
    + destruct (JSString.split sep (d +:+ String sep n)) as [|seg rest] eqn:Hs; [cbn in IH2; lia|].
      destruct rest as [|seg' rest]; [cbn in IH2; lia|].
      split; [|cbn; lia]. rewrite <- IH1. done.
Qed.

Lemma last_segment_after_slash d n :
  has_unit "/" n = false -> last_segment (d +:+ "/" +:+ n) = n.
Proof.
  intros Hn. unfold last_segment.
  change (d +:+ "/" +:+ n) with (d +:+ String "/" n).
  rewrite (proj1 (split_last_after_separator "/" d n)).
  rewrite split_without_separator by done. cbn.
  by destruct n.
Qed.

(** X1. A rename that keeps the file name (a move to another folder, or a
    rename event with the same path) logs the debug line only. *)
Theorem rename_keeping_name_logs_debug_only f dir w :
  has_unit "/" (name f) = false ->
  VaultEventHandler.onFileRename (File f) (dir +:+ "/" +:+ name f) w =
    (Ret tt,
     add_trace [ELog Debug CVaultEventHandler "Processing file rename event"
                  (Some [("oldPath", VStr (dir +:+ "/" +:+ name f));
                         ("newPath", VStr (path f))])] w) /\
  VaultEventHandler.onFileRename (File f) (name f) w =
    (Ret tt,
     add_trace [ELog Debug CVaultEventHandler "Processing file rename event"
                  (Some [("oldPath", VStr (name f));
                         ("newPath", VStr (path f))])] w).
Proof.
  intros Hname.
  assert (Hroot : last_segment (name f) = name f).
  { unfold last_segment. rewrite split_without_separator by done. cbn. by destruct (name f). }
  split; unfold VaultEventHandler.onFileRename.
  - fold (last_segment (dir +:+ "/" +:+ name f)).
    rewrite last_segment_after_slash by done. rewrite String.eqb_refl. reflexivity.
  - fold (last_segment (name f)). rewrite Hroot, String.eqb_refl. reflexivity.
Qed.

Lemma prefix_toLowerCase a b :
  String.prefix a b = true ->
  String.prefix (JSString.toLowerCase a) (JSString.toLowerCase b) = true.
Proof.
  revert b. induction a as [|c a IH]; intros b; [by destruct b|].
  destruct b as [|c' b]; [done|]. cbn -[JSString.lower_unit].
  destruct (ascii_dec c c') as [->|]; [|done].
  intros Hp. destruct (ascii_dec _ _); [by apply IH|done].
Qed.

Lemma includes_toLowerCase s sub :
  JSString.includes s sub = true ->
  JSString.includes (JSString.toLowerCase s) (JSString.toLowerCase sub) = true.
Proof.
  induction s as [|c s IH]; cbn -[JSString.lower_unit String.prefix].
  - rewrite !orb_false_r. apply prefix_toLowerCase.
  - intros [Hp|Hs]%orb_true_iff; apply orb_true_iff.
    + left. by apply (prefix_toLowerCase _ (String c s)).
    + right. by apply IH.
Qed.

(** X2. The backup test of [onFileDelete] does not look at letter case: a
    file whose name holds "backup" in any mix of cases is warned about. *)
Theorem delete_backup_test_ignores_case f spelling w :
  JSString.toLowerCase spelling = "backup" ->
  JSString.includes (name f) spelling = true ->
  exists out,
    VaultEventHandler.onFileDelete (File f) w = (Ret tt, add_trace out w) /\
    ELog Warn CVaultEventHandler
      "File deleted from important location or appears to be backup"
      (Some [("path", VStr (path f));
             ("reason", VStr "deletion from protected area detected")]) ∈ out.
Proof.
  intros Hlow Hin. apply includes_toLowerCase in Hin. rewrite Hlow in Hin.
  exists (lines (VaultEventHandler.onFileDelete (File f)) ∅).
  split; [apply onFileDelete_lines|].
  unfold lines, VaultEventHandler.onFileDelete. rewrite Hin, orb_true_r.
  cbn -[JSString.toFixed2_MiB]. split_guards; cbn -[JSString.toFixed2_MiB]; set_solver.
Qed.

(** Membership in a list of levels that is known, by deciding it. *)
Ltac level_mem :=
  cbn;
  repeat match goal with
         | |- _ /\ _ => split
         | |- _ <-> _ => split; intros ?
         end;
  first [ done
        | by apply (bool_decide_unpack _)
        | exfalso;
          match goal with
          | H : _ ∈ _ |- _ => revert H; by apply (bool_decide_unpack (_ ∉ _))
          end ].

(** One run of [updateSetting], with the calls it makes. *)
Lemma updateSetting_calls this key value w :
  let hp := store_after this key value w in
  let content := default ∅ (hp !! settings (plugin w)) in
  exists out,
    saves out = [content] /\
    levels out =
      (Debug :: (if too_long key value then [Warn] else []) ++
       Debug :: match pending (host w) with
                | Some _ :: _ => [Error]
                | _ => [Debug; Info]
                end)%list /\
    last out =
      Some match pending (host w) with
           | Some e :: _ => update_failure_line key value e
           | _ => update_success_line key value
           end /\
    SettingsManager.updateSetting this key value w =
      match pending (host w) with
      | Some e :: rest =>
          (Throw e,
           mkWorld (plugin w)
             (mkHost hp (disk (host w)) rest (manifest_version (host w))
                (trace (host w) ++ out)))
      | _ =>
          (Ret tt,
           mkWorld (plugin w)
             (mkHost hp (Some content) (tail (pending (host w)))
                (manifest_version (host w)) (trace (host w) ++ out)))
      end.
Proof.
  intros hp content. subst hp content. unfold store_after.
  unfold SettingsManager.updateSetting.
  destruct w as [p [hp d pe mv t]].
  cbn [host plugin pending heap disk manifest_version trace].
  destruct pe as [|[e|] rest].
  all: destruct key;
    [|destruct value as [| |b|n|s|l];
      [| | | |destruct (100 <? JSString.length s) eqn:Hlen|]].
  all: eexists; split; [|split; [|split]].
  all: try (cbn -[SettingsManager.shown_value prop];
            rewrite <- ?app_assoc; reflexivity).
  all: try (cbn -[SettingsManager.shown_value]; rewrite ?Hlen; reflexivity).
Qed.

(** X3. [updateSetting] makes exactly one save call, with the settings
    record as it is after the write, and uses up exactly one outcome of
    the storage: there is no retry after a failure. *)
Theorem updateSetting_saves_exactly_once this key value w :
  exists r w' out,
    SettingsManager.updateSetting this key value w = (r, w') /\
    trace (host w') = (trace (host w) ++ out)%list /\
    saves out = [settings_record w'] /\
    pending (host w') = tail (pending (host w)) /\
    match r with
    | Ret _ => next_succeeds (host w)
    | Throw e => next_raises e (host w)
    end.
Proof.
  destruct (updateSetting_calls this key value w) as (out & Hsaves & _ & _ & Hrun).
  unfold next_succeeds, next_raises.
  destruct (pending (host w)) as [|[e|] rest];
    do 2 eexists; exists out; (split; [exact Hrun|]); by cbn.
Qed.

Lemma too_long_spec key value :
  too_long key value = true <->
  key = exampleSetting /\ exists s, value = VStr s /\ 100 < JSString.length s.
Proof.
  unfold too_long. split.
  - destruct key; [done|]. destruct value; try done.
    intros H%Z.ltb_lt. eauto.
  - intros (-> & s & -> & H). by apply Z.ltb_lt.
Qed.

(** X4. [updateSetting] logs a warning only for the key [exampleSetting]
    with a string of more than 100 code units; every other update, a
    string of exactly 100 included, is made without a warning. *)
Theorem updateSetting_warns_only_when_too_long this key value w :
  exists r w' out,
    SettingsManager.updateSetting this key value w = (r, w') /\
    trace (host w') = (trace (host w) ++ out)%list /\
    (Warn ∈ levels out <->
     key = exampleSetting /\ exists s, value = VStr s /\ 100 < JSString.length s).
Proof.
  destruct (updateSetting_calls this key value w) as (out & _ & Hlv & _ & Hrun).
  assert (Hw : Warn ∈ levels out <-> too_long key value = true).
  { rewrite Hlv. destruct (too_long key value), (pending (host w)) as [|[e|] rest];
      level_mem. }
  destruct (pending (host w)) as [|[e|] rest];
    do 2 eexists; exists out; (split; [exact Hrun|]); (split; [by cbn|]).
  all: rewrite Hw; apply too_long_spec.
Qed.


Lemma length_substring0 n s :
  String.length (JSString.substring0 n s) = Nat.min n (String.length s).
Proof.
  unfold JSString.substring0. revert s.
  induction n as [|n IH]; intros [|c s]; cbn; try done. by rewrite IH.
Qed.

Lemma length_string_append a b :
  String.length (a +:+ b) = (String.length a + String.length b)%nat.
Proof.
  induction a as [|c a IH]; [done|].
  change (String c a +:+ b) with (String c (a +:+ b)). cbn. by rewrite IH.
Qed.

Lemma prefix_substring0 n s : String.prefix (JSString.substring0 n s) s = true.
Proof.
  unfold JSString.substring0. revert s.
  induction n as [|n IH]; intros [|c s]; cbn; try done.
  destruct (ascii_dec c c); [apply IH|done].
Qed.

(** X6. The closing info line of [updateSetting] shows a long string cut
    down: for a string of more than 50 code units it carries the first 50
    followed by "...", 53 code units in all, and a shorter string as it is.
    The setting itself is stored whole. *)
Theorem updateSetting_logs_long_value_cut this key s w :
  well_formed this w ->
  next_succeeds (host w) ->
  exists w' out shown,
    SettingsManager.updateSetting this key (VStr s) w = (Ret tt, w') /\
    trace (host w') = (trace (host w) ++ out)%list /\
    last out = Some (ELog Info CSettingsManager "Setting successfully updated"
                       (Some [("key", VStr (key_name key)); ("newValue", VStr shown)])) /\
    settings_record w' !! key_name key = Some (VStr s) /\
    (JSString.length s <= 50 -> shown = s) /\
    (50 < JSString.length s ->
     shown = JSString.substring0 50 s +:+ "..." /\
     JSString.length shown = 53 /\
     String.prefix (JSString.substring0 50 s) s = true /\
     JSString.length (JSString.substring0 50 s) = 50).
Proof.
  intros [Hm Hp] Hok.
  destruct (updateSetting_calls this key (VStr s) w) as (out & _ & _ & Hlast & Hrun).
  unfold next_succeeds in Hok.
  assert (Hcut : 50 < JSString.length s ->
                 JSString.length (JSString.substring0 50 s) = 50).
  { unfold JSString.length. rewrite length_substring0. lia. }
  exists (mkWorld (plugin w)
            (mkHost (store_after this key (VStr s) w)
               (Some (default ∅ (store_after this key (VStr s) w !! settings (plugin w))))
               (tail (pending (host w))) (manifest_version (host w))
               (trace (host w) ++ out))), out.
  exists (if 50 <? JSString.length s
          then JSString.substring0 50 s +:+ "..." else s).
  split; [|split; [done|split; [|split; [|split]]]].
  - rewrite Hrun. by destruct (pending (host w)) as [|[e|] rest].
  - rewrite Hlast. unfold update_success_line, SettingsManager.shown_value.
    destruct (pending (host w)) as [|[e|] rest]; [|done|];
      by destruct (50 <? JSString.length s).
  - unfold settings_record, record_at. cbn.
    rewrite store_after_record by auto. by rewrite lookup_insert_eq.
  - intros Hshort. apply Z.ltb_ge in Hshort. by rewrite Hshort.
  - intros Hlong. pose proof (Hcut Hlong) as H50. apply Z.ltb_lt in Hlong. rewrite Hlong.
    repeat split; [|apply prefix_substring0|done].
    unfold JSString.length in *. rewrite length_string_append. cbn. lia.
Qed.

Lemma key_name_inj k1 k2 : key_name k1 = key_name k2 -> k1 = k2.
Proof. by destruct k1, k2. Qed.

(** What an update does to the storage, in a wired world. *)
Lemma exec_update_storage w key value :
  wired w ->
  pending (host (exec w (OpUpdateSetting key value))) = tail (pending (host w)) /\
  disk (host (exec w (OpUpdateSetting key value))) =
    match pending (host w) with
    | Some _ :: _ => disk (host w)
    | _ => Some (settings_record (exec w (OpUpdateSetting key value)))
    end.
Proof.
  intros Hw. cbn [exec].
  destruct (updateSetting_run (settingsManager (plugin w)) key value w)
    as (out & _ & _ & Hrun).
  rewrite Hrun. by destruct (pending (host w)) as [|[e|] rest].
Qed.

(** X7. Updates compose on the settings record as writes to a map: of two
    updates of one key the later one wins, and updates of different keys
    give the same record in either order, whatever the storage does. *)
Theorem updates_compose w k1 v1 k2 v2 v :
  wired w ->
  settings_record (exec (exec w (OpUpdateSetting k1 v)) (OpUpdateSetting k1 v1))
    = settings_record (exec w (OpUpdateSetting k1 v1)) /\
  (k1 <> k2 ->
   settings_record (exec (exec w (OpUpdateSetting k1 v1)) (OpUpdateSetting k2 v2))
   = settings_record (exec (exec w (OpUpdateSetting k2 v2)) (OpUpdateSetting k1 v1))).
Proof.
  intros Hw.
  assert (Hstep : forall w k x, wired w ->
            settings_record (exec w (OpUpdateSetting k x))
            = <[key_name k := x]> (settings_record w)).
  { intros w0 k x Hw0. by destruct (exec_settings_record w0 (OpUpdateSetting k x) Hw0) as (_ & _ & ->). }
  split.
  - rewrite !Hstep by (try apply exec_wired; done). apply insert_insert_eq.
  - intros Hne. rewrite !Hstep by (try apply exec_wired; done).
    apply insert_insert_ne. intros Heq. by apply Hne, key_name_inj.
Qed.

(** X8. A failed save heals at the next successful one: when the save call
    of one update raises and that of the next update succeeds, the blob
    persisted then is the whole in-memory record, the value of the first
    update included. *)
Theorem failed_save_is_made_up_by_next_update w k1 v1 k2 v2 e :
  wired w ->
  next_raises e (host w) ->
  let w1 := exec w (OpUpdateSetting k1 v1) in
  let w2 := exec w1 (OpUpdateSetting k2 v2) in
  next_succeeds (host w1) ->
  disk (host w1) = disk (host w) /\
  settings_record w2 = <[key_name k2 := v2]> (<[key_name k1 := v1]> (settings_record w)) /\
  disk (host w2) = Some (settings_record w2).
Proof.
  intros Hw Hraise w1 w2 Hok. subst w1 w2.
  pose proof (exec_wired w (OpUpdateSetting k1 v1) Hw) as Hw1.
  destruct (exec_update_storage w k1 v1 Hw) as [_ Hd1].
  destruct (exec_update_storage _ k2 v2 Hw1) as [_ Hd2].
  destruct (exec_settings_record w (OpUpdateSetting k1 v1) Hw) as (_ & _ & Hr1).
  destruct (exec_settings_record _ (OpUpdateSetting k2 v2) Hw1) as (_ & _ & Hr2).
  unfold next_raises in Hraise. unfold next_succeeds in Hok.
  split; [|split].
  - rewrite Hd1. by destruct (pending (host w)) as [|[e'|] rest].
  - by rewrite Hr2, Hr1.
  - rewrite Hd2.
    by destruct (pending (host (exec w (OpUpdateSetting k1 v1)))) as [|[e'|] rest].
Qed.

Lemma onload_result h p h' :
  TemplatePlugin.onload h = (Ret p, h') ->
  settings_record (mkWorld p h') =
    match disk h with
    | Some o => o ∪ TemplatePlugin.DEFAULT_SETTINGS
    | None => TemplatePlugin.DEFAULT_SETTINGS
    end /\
  disk h' = disk h /\
  pending h' = tail (pending h).
Proof.
  intros Hrun. pose proof (onload_returns_only_on_success _ _ _ Hrun) as Hok.
  destruct (onload_run h Hok) as [out Hrun']. rewrite Hrun' in Hrun.
  injection Hrun as <- <-.
  unfold settings_record, record_at. cbn [plugin host heap settings disk pending].
  by rewrite lookup_insert_eq.
Qed.

Lemma union_absorbs (r d : gmap string jsval) : dom d ⊆ dom r -> r ∪ d = r.
Proof.
  intros Hsub. apply map_eq. intros i. rewrite lookup_union.
  destruct (r !! i) as [x|] eqn:Hr; [by destruct (d !! i)|].
  assert (d !! i = None) as ->; [|done].
  apply not_elem_of_dom. intros Hin. apply Hsub in Hin.
  apply elem_of_dom in Hin as [y Hy]. congruence.
Qed.

Lemma exec_dom w o : wired w -> dom (settings_record w) ⊆ dom (settings_record (exec w o)).
Proof.
  intros Hw. destruct (exec_settings_record w o Hw) as (_ & _ & ->).
  destruct o; try done. rewrite dom_insert. apply union_subseteq_r.
Qed.

Lemma loaded_has_default_keys h p h' ops :
  TemplatePlugin.onload h = (Ret p, h') ->
  dom TemplatePlugin.DEFAULT_SETTINGS ⊆ dom (settings_record (run (mkWorld p h') ops)).
Proof.
  intros Hload. pose proof (onload_wired _ _ _ Hload) as Hw.
  assert (H0 : dom TemplatePlugin.DEFAULT_SETTINGS ⊆ dom (settings_record (mkWorld p h'))).
  { rewrite (proj1 (onload_result _ _ _ Hload)).
    destruct (disk h); [rewrite dom_union; apply union_subseteq_r|done]. }
  revert Hw H0. generalize (mkWorld p h'). clear Hload.
  induction ops as [|o ops IH]; intros w Hw H0; [done|].
  cbn. apply IH; [by apply exec_wired|].
  etransitivity; [exact H0|by apply exec_dom].
Qed.

(** X9. Settings survive a restart: after a successful [updateSetting], a
    plugin object loading anew from the host's storage builds the very
    record that was in memory. *)
Theorem settings_survive_restart h p h' ops key value w1 :
  TemplatePlugin.onload h = (Ret p, h') ->
  let w := run (mkWorld p h') ops in
  SettingsManager.updateSetting (settingsManager (plugin w)) key value w = (Ret tt, w1) ->
  next_succeeds (host w1) ->
  exists p2 h2,
    TemplatePlugin.onload (host w1) = (Ret p2, h2) /\
    record_at (settings p2) h2 = settings_record w1.
Proof.
  intros Hload w Hupd Hok.
  assert (Hw : wired w) by (apply run_wired; by apply (onload_wired h)).
  assert (Hw1 : w1 = exec w (OpUpdateSetting key value)) by (cbn [exec]; by rewrite Hupd).
  assert (Hdisk : disk (host w1) = Some (settings_record w1)).
  { rewrite Hw1. rewrite (proj2 (exec_update_storage w key value Hw)).
    destruct (updateSetting_run (settingsManager (plugin w)) key value w)
      as (out & _ & _ & Hrun).
    rewrite Hrun in Hupd. by destruct (pending (host w)) as [|[e|] rest]. }
  assert (Hkeys : dom TemplatePlugin.DEFAULT_SETTINGS ⊆ dom (settings_record w1)).
  { rewrite Hw1.
    pose proof (loaded_has_default_keys h p h' (ops ++ [OpUpdateSetting key value]) Hload)
      as Hkeys.
    unfold run in Hkeys. by rewrite foldl_app in Hkeys. }
  destruct (onload_run (host w1) Hok) as [out Hrun].
  do 2 eexists. split; [exact Hrun|].
  unfold record_at at 1. cbn [heap settings]. rewrite lookup_insert_eq. cbn.
  rewrite Hdisk. by apply union_absorbs.
Qed.

Lemma ribbon_callback_lines evt w :
  TemplatePlugin.ribbon_callback evt w =
  (Ret tt, add_trace (lines (TemplatePlugin.ribbon_callback evt) (settings_record w)) w).
Proof.
  unfold lines, settings_record, record_at, TemplatePlugin.ribbon_callback,
    TemplatePlugin.handleRibbonClick, try_catch, bind.
  cbn -[truthy prop]. rewrite lookup_singleton_eq. cbn [default].
  destruct (truthy _); same_trace.
Qed.

Lemma command_callback_lines activeFile w :
  TemplatePlugin.command_callback activeFile w =
  (Ret tt, add_trace (lines (TemplatePlugin.command_callback activeFile) (settings_record w)) w).
Proof.
  unfold lines, settings_record, record_at, TemplatePlugin.command_callback,
    TemplatePlugin.executeExampleCommand.
  destruct activeFile as [file|]; cbn -[truthy prop].
  - rewrite lookup_singleton_eq. cbn [default]. same_trace.
  - same_trace.
Qed.

Lemma onunload_lines r w :
  TemplatePlugin.onunload w = (Ret tt, add_trace (lines TemplatePlugin.onunload r) w).
Proof. unfold lines, TemplatePlugin.onunload. same_trace. Qed.

Lemma cleanup_lines r w :
  VaultEventHandler.cleanup w = (Ret tt, add_trace (lines VaultEventHandler.cleanup r) w).
Proof. unfold lines, VaultEventHandler.cleanup. same_trace. Qed.

(** X10. [updateSetting] is the only way the plugin changes its settings or
    writes to storage: every other callback it leaves with the host (vault
    events, ribbon click, command, unloading) returns normally and only
    adds log lines to the trace. *)
Theorem only_updateSetting_changes_state file oldPath evt activeFile callback w :
  callback ∈ logging_callbacks file oldPath evt activeFile ->
  exists out,
    callback w = (Ret tt, add_trace out w) /\
    forallb is_log out = true /\
    saves out = [].
Proof.
  unfold logging_callbacks. intros Hin. apply elem_of_app in Hin as [Hin|Hin].
  { exists (lines callback (settings_record w)).
    split; [by apply (handler_lines file oldPath)|].
    pose proof (handler_lines_are_logs file oldPath callback (settings_record w) Hin) as Hlogs.
    split; [done|]. revert Hlogs. generalize (lines callback (settings_record w)).
    induction l as [|[] l IH]; cbn; try done; intros; by apply IH. }
  apply elem_of_cons in Hin as [->|Hin].
  { eexists. split; [apply ribbon_callback_lines|].
    unfold lines, TemplatePlugin.ribbon_callback, TemplatePlugin.handleRibbonClick,
      try_catch, bind.
    cbn -[truthy prop]. by destruct (truthy _). }
  apply elem_of_cons in Hin as [->|Hin].
  { eexists. split; [apply command_callback_lines|].
    unfold lines, TemplatePlugin.command_callback, TemplatePlugin.executeExampleCommand.
    by destruct activeFile. }
  apply elem_of_cons in Hin as [->|Hin].
  { eexists. split; [apply (onunload_lines ∅)|]. done. }
  apply elem_of_cons in Hin as [->|Hin].
  { eexists. split; [apply (cleanup_lines ∅)|]. done. }
  by apply elem_of_nil in Hin.
Qed.

(** X11. The feature flag gates the ribbon click and not the command: a
    ribbon click ends in the info line when [enableFeature] holds and in
    the warning when it does not; the example command logs its success
    line for an active file whatever the flag is, and a warning only when
    no file is active. *)
Theorem flag_gates_ribbon_not_command evt activeFile w :
  exists out_ribbon out_command,
    TemplatePlugin.ribbon_callback evt w = (Ret tt, add_trace out_ribbon w) /\
    TemplatePlugin.command_callback activeFile w = (Ret tt, add_trace out_command w) /\
    levels out_ribbon =
      [Debug; Debug;
       if truthy (prop (settings_record w) "enableFeature") then Info else Warn] /\
    levels out_command =
      [Info; Debug; if activeFile is Some _ then Info else Warn].
Proof.
  do 2 eexists. split; [apply ribbon_callback_lines|].
  split; [apply command_callback_lines|].
  split.
  - unfold lines, TemplatePlugin.ribbon_callback, TemplatePlugin.handleRibbonClick,
      try_catch, bind.
    cbn -[truthy prop settings_record]. rewrite lookup_singleton_eq. cbn [default from_option id].
    by destruct (truthy _).
  - unfold lines, TemplatePlugin.command_callback, TemplatePlugin.executeExampleCommand.
    by destruct activeFile.
Qed.

(** X12. A persisted field the plugin does not know is never dropped: it is
    loaded into the settings record, stays there through every operation,
    and is in every blob the plugin saves afterwards. *)
Theorem unknown_persisted_fields_are_kept h p h' persisted k v ops :
  TemplatePlugin.onload h = (Ret p, h') ->
  disk h = Some persisted ->
  persisted !! k = Some v ->
  (forall key, k <> key_name key) ->
  let w := run (mkWorld p h') ops in
  settings_record w !! k = Some v /\
  forall blob, disk (host w) = Some blob -> blob !! k = Some v.
Proof.
  intros Hload Hdisk Hk Hunknown w. subst w.
  pose proof (onload_wired _ _ _ Hload) as Hw.
  destruct (onload_result _ _ _ Hload) as (Hrec & Hd & _).
  assert (H0 : settings_record (mkWorld p h') !! k = Some v
               /\ forall blob, disk (host (mkWorld p h')) = Some blob -> blob !! k = Some v).
  { rewrite Hrec, Hdisk. cbn [host]. rewrite Hd, Hdisk. split.
    - rewrite lookup_union, Hk. by destruct (TemplatePlugin.DEFAULT_SETTINGS !! k).
    - by intros blob [= <-]. }
  revert Hw H0. generalize (mkWorld p h'). clear Hload Hrec Hd.
  induction ops as [|o ops IH]; intros w Hw [Hr Hb]; [done|].
  cbn. apply IH; [by apply exec_wired|].
  destruct (exec_settings_record w o Hw) as (_ & _ & Hrec).
  assert (Hr' : settings_record (exec w o) !! k = Some v).
  { rewrite Hrec. destruct o; try done. by rewrite lookup_insert_ne. }
  split; [done|].
  destruct o as [key value| |file|file|file oldPath].
  - rewrite (proj2 (exec_update_storage w key value Hw)).
    destruct (pending (host w)) as [|[e|] rest]; [|done|]; by intros blob [= <-].
  - done.
  - cbn [exec]. by rewrite onFileCreate_lines.
  - cbn [exec]. by rewrite (onFileDelete_lines file ∅).
  - cbn [exec]. by rewrite (onFileRename_lines file oldPath ∅).
Qed.

(** X13. [getSettings] hands out the live settings object and no copy: a
    write made through the reference it returns shows in the plugin's
    settings record, and nothing is saved or logged for it. *)
Theorem getSettings_gives_the_live_object w k v :
  wired w ->
  exists l w',
    SettingsManager.getSettings (settingsManager (plugin w)) w = (Ret l, w') /\
    let w'' := snd (in_host (set_field l k v) w') in
    settings_record w'' !! k = Some v /\
    disk (host w'') = disk (host w) /\
    trace (host w'') = trace (host w').
Proof.
  intros [Hsame [r Hr]]. do 2 eexists. split; [apply getSettings_run|].
  cbn. unfold settings_record, record_at. cbn. rewrite Hsame, lookup_alter_eq, Hr. cbn.
  by rewrite lookup_insert_eq.
Qed.

(** X14. An update whose save failed is lost at the next start: unloading
    saves nothing, so a plugin object loading anew finds the blob persisted
    before the update, while the record in memory held the new value. *)
Theorem failed_update_is_lost_at_restart w key value e persisted :
  wired w ->
  next_raises e (host w) ->
  disk (host w) = Some persisted ->
  let w1 := exec w (OpUpdateSetting key value) in
  settings_record w1 !! key_name key = Some value /\
  exists out w2,
    TemplatePlugin.onunload w1 = (Ret tt, w2) /\
    w2 = add_trace out w1 /\
    forallb is_debug_log out = true /\
    (next_succeeds (host w2) ->
     exists p3 h3,
       TemplatePlugin.onload (host w2) = (Ret p3, h3) /\
       record_at (settings p3) h3 = persisted ∪ TemplatePlugin.DEFAULT_SETTINGS).
Proof.
  intros Hw Hraise Hdisk w1. subst w1.
  destruct (exec_settings_record w (OpUpdateSetting key value) Hw) as (_ & _ & Hrec).
  destruct (exec_update_storage w key value Hw) as [_ Hd].
  split; [by rewrite Hrec, lookup_insert_eq|].
  do 2 eexists. split; [apply (onunload_lines ∅)|]. split; [done|]. split; [done|].
  intros Hok. destruct (onload_run _ Hok) as [out Hrun].
  do 2 eexists. split; [exact Hrun|].
  unfold record_at. cbn [heap settings]. rewrite lookup_insert_eq.
  cbn [default from_option id add_trace host set_trace disk].
  rewrite Hd. unfold next_raises in Hraise.
  destruct (pending (host w)) as [|[e'|] rest]; [done| |done]. by rewrite Hdisk.
Qed.

Lemma onload_calls h :
  exists out,
    TemplatePlugin.onload h =
      (let l := fresh (dom (heap h)) in
       match pending h with
       | Some e :: rest =>
           (Throw e,
            mkHost (<[l := ∅]> (heap h)) (disk h) rest (manifest_version h)
                   (trace h ++ out))
       | _ =>
           (Ret (mkPlugin l (mkManager l)),
            mkHost (<[l := match disk h with
                           | Some o => o ∪ TemplatePlugin.DEFAULT_SETTINGS
                           | None => TemplatePlugin.DEFAULT_SETTINGS
                           end]> (heap h))
                   (disk h) (tail (pending h)) (manifest_version h) (trace h ++ out))
       end) /\
    host_calls out =
      match pending h with
      | Some e :: _ => take 3 onload_host_calls
      | _ => onload_host_calls
      end /\
    forall e rest, pending h = Some e :: rest -> last out = Some (onload_failure_line e).
Proof.
  destruct h as [hp d pe mv t]. cbn [pending heap disk manifest_version trace].
  assert (Hunion : TemplatePlugin.DEFAULT_SETTINGS ∪ (∅ : gmap string jsval)
                   = TemplatePlugin.DEFAULT_SETTINGS) by apply (right_id_L ∅ (∪)).
  destruct pe as [|[e|] rest].
  all: eexists; split; [|split].
  all: try (unfold TemplatePlugin.onload;
            cbn -[TemplatePlugin.DEFAULT_SETTINGS fresh dom insert alter union];
            try match goal with
            | |- context [alter ?f ?l (<[?l := ?e]> ?m)] =>
                set (X := alter f l (<[l := e]> m));
                assert (HX : X = <[l := match d with
                         | Some o => o ∪ TemplatePlugin.DEFAULT_SETTINGS
                         | None => TemplatePlugin.DEFAULT_SETTINGS
                         end]> m)
                  by (subst X; rewrite alter_insert_eq, Hunion; by destruct d);
                clearbody X; subst X
            end;
            apply host_result_eq; grown_trace).
  all: try (intros e' rest' [= <- <-]).
  all: try (intros e' rest' [=]).
  all: reflexivity.
Qed.

(** X15. When loading the settings raises, [onload] logs the error line and
    rethrows the same error; by then it has made the logger set-up and the
    load call only: no settings tab, vault event, ribbon icon or command is
    registered, and storage and the objects of the store are untouched. *)
Theorem onload_failure_registers_nothing h e :
  next_raises e h ->
  exists h' out,
    TemplatePlugin.onload h = (Throw e, h') /\
    trace h' = (trace h ++ out)%list /\
    host_calls out =
      [EInitLogger; ERegisterLoggerClass CTemplatePlugin "TemplatePlugin"; ELoadData] /\
    last out = Some (onload_failure_line e) /\
    disk h' = disk h /\
    forall l, is_Some (heap h !! l) -> heap h' !! l = heap h !! l.
Proof.
  unfold next_raises. intros Hraise.
  destruct (onload_calls h) as (out & Hrun & Hcalls & Hlast).
  destruct (pending h) as [|[e'|] rest]; [done| |done]. subst e'.
  do 2 eexists. split; [exact Hrun|]. cbn [trace disk heap].
  repeat split; try done; [by apply (Hlast e rest)|].
  intros l Hl. apply lookup_insert_ne. intros <-.
  apply elem_of_dom in Hl. by apply is_fresh in Hl.
Qed.

(** X16. When loading succeeds [onload] reads storage once and never writes
    it, and registers with the host one settings tab, the three vault
    events [create], [delete] and [rename] once each and in this order, one
    ribbon icon and one command.  The settings record is a new object, held
    by the plugin and by its manager alike; the other objects are
    untouched. *)
Theorem onload_registers_once_and_never_saves h :
  next_succeeds h ->
  exists p h' out,
    TemplatePlugin.onload h = (Ret p, h') /\
    trace h' = (trace h ++ out)%list /\
    host_calls out = onload_host_calls /\
    saves out = [] /\
    disk h' = disk h /\
    pending h' = tail (pending h) /\
    sm_settings (settingsManager p) = settings p /\
    heap h !! settings p = None /\
    forall l, l <> settings p -> heap h' !! l = heap h !! l.
Proof.
  unfold next_succeeds. intros Hok.
  destruct (onload_calls h) as (out & Hrun & Hcalls & _).
  assert (Hsaves : saves out = []).
  { assert (Hs : saves (host_calls out) = []).
    { rewrite Hcalls. by destruct (pending h) as [|[e|] rest]. }
    revert Hs. unfold saves, host_calls. clear.
    induction out as [|[] out IH]; cbn; try done. }
  exists (mkPlugin (fresh (dom (heap h))) (mkManager (fresh (dom (heap h))))).
  exists (mkHost (<[fresh (dom (heap h)) :=
                     match disk h with
                     | Some o => o ∪ TemplatePlugin.DEFAULT_SETTINGS
                     | None => TemplatePlugin.DEFAULT_SETTINGS
                     end]> (heap h))
            (disk h) (tail (pending h)) (manifest_version h) (trace h ++ out)).
  exists out.
  split; [rewrite Hrun; by destruct (pending h) as [|[e|] rest]|].
  cbn [trace disk heap pending settings settingsManager sm_settings].
  repeat split; try done.
  - by destruct (pending h) as [|[e|] rest].
  - apply not_elem_of_dom, is_fresh.
  - intros l Hl. by apply lookup_insert_ne.
Qed.

Lemma split_segments_without_separator sep s :
  Forall (fun seg => has_unit sep seg = false) (JSString.split sep s).
Proof.
  induction s as [|c s IH]; cbn; [by constructor|].
  destruct (Ascii.eqb c sep) eqn:Hc; [by constructor|].
  destruct (JSString.split sep s) as [|seg rest]; [by repeat constructor; cbn; rewrite Hc|].
  inversion IH as [|? ? Hseg Hrest]; subst.
  constructor; [|done]. cbn. by rewrite Hc.
Qed.

(** X17. The old name [onFileRename] compares with is the part of the old
    path after its last slash: it holds no slash, and for an old path made
    of a folder path, a slash and a name without slash it is that name. *)
Theorem old_name_is_last_path_segment oldPath :
  has_unit "/" (last_segment oldPath) = false /\
  forall dir n, has_unit "/" n = false -> oldPath = dir +:+ "/" +:+ n ->
                last_segment oldPath = n.
Proof.
  split.
  - unfold last_segment, VaultEventHandler.or_else.
    pose proof (split_segments_without_separator "/" oldPath) as Hall.
    destruct (last (JSString.split "/" oldPath)) as [seg|] eqn:Hlast; [|done].
    destruct (String.eqb seg ""); [done|].
    apply last_Some in Hlast as [l' Hl']. rewrite Hl' in Hall.
    by apply Forall_app in Hall as [_ [Hseg _]%Forall_cons].
  - intros dir n Hn ->. by apply last_segment_after_slash.
Qed.

Lemma prefix_append sub b : String.prefix sub (sub +:+ b) = true.
Proof.
  induction sub as [|c sub IH]; [by destruct b|].
  change (String c sub +:+ b) with (String c (sub +:+ b)). cbn.
  by destruct (ascii_dec c c).
Qed.

Lemma includes_middle a sub b : JSString.includes (a +:+ sub +:+ b) sub = true.
Proof.
  induction a as [|c a IH].
  - change ("" +:+ sub +:+ b) with (sub +:+ b).
    destruct (sub +:+ b) eqn:Hs; cbn -[String.prefix]; rewrite <- Hs, prefix_append; done.
  - change (String c a +:+ sub +:+ b) with (String c (a +:+ sub +:+ b)).
    cbn -[String.prefix]. rewrite IH. apply orb_true_r.
Qed.

(** X18. With the feature on, [onFileCreate] reports a file under a folder
    named [.temp] at any depth below another folder; the test asks for the
    slash before [.temp], so a file in a [.temp] folder at the top of the
    vault is not reported unless its name starts with [temp_]. *)
Theorem create_temp_rule_needs_a_leading_slash f w :
  truthy (prop (settings_record w) "enableFeature") = true ->
  exists out,
    VaultEventHandler.onFileCreate (File f) w = (Ret tt, add_trace out w) /\
    (forall a b, path f = a +:+ "/.temp/" +:+ b -> restricted_line f ∈ out) /\
    (forall b, path f = ".temp/" +:+ b ->
               String.prefix ".temp/" b = false ->
               JSString.includes b "/.temp/" = false ->
               JSString.startsWith (name f) "temp_" = false ->
               Error ∉ levels out).
Proof.
  intros Hon. eexists. split; [apply onFileCreate_lines|].
  unfold lines, VaultEventHandler.onFileCreate. cbn -[truthy prop settings_record].
  rewrite lookup_singleton_eq. cbn [default from_option id]. rewrite Hon.
  split.
  - intros a b Hpath.
    assert (Hinc : JSString.includes (path f) "/.temp/" = true)
      by (rewrite Hpath; apply includes_middle).
    rewrite Hinc. unfold restricted_line. cbn.
    split_guards; cbn; rewrite ?elem_of_cons; auto 10.
  - intros b Hpath Hpre Hinc Hname.
    assert (Hno : JSString.includes (path f) "/.temp/" = false).
    { rewrite Hpath. change (".temp/" +:+ b) with (String "." (String "t" (String "e"
        (String "m" (String "p" (String "/" b)))))).
      cbn. by rewrite Hpre, Hinc. }
    rewrite Hno, Hname. cbn.
    split_guards; level_mem.
Qed.


(** ** The theorems at sample inputs *)

Example split_path : JSString.split "/" "notes/daily/a b.md" = ["notes"; "daily"; "a b.md"].
Proof. reflexivity. Qed.

Example split_empty : JSString.split "/" "" = [""].
Proof. reflexivity. Qed.

Example toFixed2_MiB_20000 : JSString.toFixed2_MiB 20000 = "0.02".
Proof. reflexivity. Qed.

Example toFixed2_MiB_5MiB : JSString.toFixed2_MiB 5242880 = "5.00".
Proof. reflexivity. Qed.

Example toLowerCase_backup : JSString.toLowerCase "My BACKUP.md" = "my backup.md".
Proof. reflexivity. Qed.

Lemma sample_onload : TemplatePlugin.onload sample_host = (Ret sample_plugin, sample_loaded).
Proof. vm_compute. reflexivity. Qed.

Example sample_settings :
  settings_record sample_world =
    <["enableFeature" := VBool false]>
      (<["exampleSetting" := VStr "default value"]> ∅).
Proof. vm_compute. reflexivity. Qed.

Lemma sample_world_well_formed :
  well_formed (settingsManager sample_plugin) sample_world.
Proof. by apply (loaded_well_formed _ _ _ sample_onload). Qed.

Lemma failing_world_well_formed :
  well_formed (settingsManager sample_plugin) failing_world.
Proof. by apply (loaded_well_formed _ _ _ sample_onload). Qed.

Lemma updateSetting_rethrows_without_rollback_witness :
  exists w',
    SettingsManager.updateSetting (settingsManager sample_plugin)
      enableFeature (VBool true) failing_world = (Throw disk_full, w') /\
    settings_record w' !! "enableFeature" = Some (VBool true) /\
    record_at 1%positive (host w') !! "enableFeature" = Some (VBool true) /\
    disk (host w') = Some {[ "enableFeature" := VBool false ]}.
Proof.
  apply (updateSetting_rethrows_without_rollback
           (settingsManager sample_plugin) enableFeature (VBool true)
           failing_world disk_full).
  - exact failing_world_well_formed.
  - reflexivity.
Defined.

Lemma onload_overlays_persisted_on_defaults_witness :
  exists p h',
    TemplatePlugin.onload sample_host = (Ret p, h') /\
    record_at (settings p) h' !! "enableFeature" = Some (VBool false) /\
    record_at (settings p) h' !! "exampleSetting" = Some (VStr "default value").
Proof.
  destruct (onload_overlays_persisted_on_defaults sample_host I)
    as (p & h' & Hrun & _ & Hsome).
  exists p, h'. split; [exact Hrun|].
  split.
  - exact (Hsome _ eq_refl "enableFeature").
  - exact (Hsome _ eq_refl "exampleSetting").
Defined.

Lemma updateSetting_long_value_warns_and_applies_witness :
  100 < JSString.length long_value /\
  exists r w' out,
    SettingsManager.updateSetting (settingsManager sample_plugin)
      exampleSetting (VStr long_value) sample_world = (r, w') /\
    trace (host w') = (trace (host sample_world) ++ out)%list /\
    length_warning long_value ∈ out /\
    settings_record w' !! "exampleSetting" = Some (VStr long_value) /\
    record_at 1%positive (host w') !! "exampleSetting" = Some (VStr long_value) /\
    ESaveData (settings_record w') ∈ out /\
    (next_succeeds (host sample_world) ->
     r = Ret tt /\ disk (host w') = Some (settings_record w')).
Proof.
  split; [reflexivity|].
  apply (updateSetting_long_value_warns_and_applies
           (settingsManager sample_plugin) long_value sample_world).
  - exact sample_world_well_formed.
  - reflexivity.
Defined.

Lemma updateSetting_mutates_one_field_and_persists_witness :
  next_succeeds (host sample_world) /\
  exists out w',
    SettingsManager.updateSetting (settingsManager sample_plugin)
      enableFeature (VBool true) sample_world = (Ret tt, w') /\
    plugin w' = sample_plugin /\
    settings_record w' = <["enableFeature" := VBool true]> (settings_record sample_world) /\
    record_at 1%positive (host w') =
      <["enableFeature" := VBool true]> (record_at 1%positive (host sample_world)) /\
    (forall l k', k' <> "enableFeature" ->
                  record_at l (host w') !! k' = record_at l (host sample_world) !! k') /\
    (forall l, l <> 1%positive -> l <> 1%positive ->
               heap (host w') !! l = heap (host sample_world) !! l) /\
    trace (host w') = (trace (host sample_world) ++ out)%list /\
    ESaveData (settings_record w') ∈ out /\
    disk (host w') = Some (settings_record w').
Proof.
  split; [exact I|].
  apply (updateSetting_mutates_one_field_and_persists
           (settingsManager sample_plugin) enableFeature (VBool true) sample_world).
  - exact sample_world_well_formed.
  - exact I.
Defined.

Lemma handlers_stateless_witness :
  settings_record sample_world = settings_record failing_world /\
  exists out,
    VaultEventHandler.onFileCreate sample_file sample_world
      = (Ret tt, add_trace out sample_world) /\
    VaultEventHandler.onFileCreate sample_file failing_world
      = (Ret tt, add_trace out failing_world) /\
    VaultEventHandler.onFileCreate sample_file (add_trace out sample_world)
      = (Ret tt, add_trace out (add_trace out sample_world)).
Proof.
  split; [reflexivity|].
  apply (handlers_stateless sample_file "Important/Old name.md").
  - unfold handlers. apply elem_of_cons. by left.
  - reflexivity.
Defined.

Lemma handlers_change_no_state_witness :
  exists out w',
    VaultEventHandler.onFileDelete sample_file sample_world = (Ret tt, w') /\
    plugin w' = plugin sample_world /\
    heap (host w') = heap (host sample_world) /\
    settings_record w' = settings_record sample_world /\
    disk (host w') = disk (host sample_world) /\
    pending (host w') = pending (host sample_world) /\
    manifest_version (host w') = manifest_version (host sample_world) /\
    trace (host w') = (trace (host sample_world) ++ out)%list /\
    forallb is_log out = true.
Proof.
  apply (handlers_change_no_state sample_file "Important/Old name.md").
  unfold handlers. apply elem_of_cons. right. apply elem_of_cons. by left.
Defined.

Lemma enableFeature_gates_create_only_witness :
  truthy (prop (settings_record sample_world) "enableFeature") = false /\
  exists out,
    VaultEventHandler.onFileCreate sample_file sample_world
      = (Ret tt, add_trace out sample_world) /\
    forallb is_debug_log out = true.
Proof.
  split; [reflexivity|].
  apply (proj1 (enableFeature_gates_create_only
                  sample_file "Important/Old name.md" sample_world)).
  reflexivity.
Defined.

Lemma sample_host_stored_defined : stored_defined sample_host.
Proof.
  intros o k v [= <-] Hk.
  apply lookup_singleton_Some in Hk as [_ <-]. done.
Qed.

Lemma settings_record_keeps_both_fields_witness :
  Forall op_defined sample_ops /\
  (let w := run sample_world sample_ops in
   has_field (settings_record w) "enableFeature" /\
   has_field (settings_record w) "exampleSetting" /\
   forall o, dom (settings_record w) ⊆ dom (settings_record (exec w o))).
Proof.
  assert (Hops : Forall op_defined sample_ops) by (repeat constructor; discriminate).
  split; [exact Hops|].
  apply (settings_record_keeps_both_fields sample_host sample_plugin sample_loaded sample_ops).
  - exact sample_onload.
  - exact sample_host_stored_defined.
  - exact Hops.
Defined.

Lemma getSettings_returns_current_record_witness :
  exists l w2,
    SettingsManager.getSettings (settingsManager (plugin updated_world)) updated_world
      = (Ret l, w2) /\
    record_at l (host w2) !! "exampleSetting" = Some (VStr "hello") /\
    l = settings (plugin w2) /\
    record_at l (host w2) = settings_record w2.
Proof.
  apply (getSettings_returns_current_record
           sample_host sample_plugin sample_loaded renamed_ops
           exampleSetting (VStr "hello") updated_world sample_onload).
  vm_compute. reflexivity.
Defined.

Lemma sample_world_wired : wired sample_world.
Proof. exact (onload_wired _ _ _ sample_onload). Qed.

Lemma failing_world_wired : wired failing_world.
Proof. exact (onload_wired _ _ _ sample_onload). Qed.

Lemma legacy_onload : TemplatePlugin.onload legacy_host = (Ret sample_plugin, legacy_loaded).
Proof. vm_compute. reflexivity. Qed.

Lemma rename_keeping_name_logs_debug_only_witness :
  VaultEventHandler.onFileRename (File sample_tfile)
    ("Archive" +:+ "/" +:+ name sample_tfile) sample_world =
    (Ret tt,
     add_trace [ELog Debug CVaultEventHandler "Processing file rename event"
                  (Some [("oldPath", VStr ("Archive" +:+ "/" +:+ name sample_tfile));
                         ("newPath", VStr (path sample_tfile))])] sample_world) /\
  VaultEventHandler.onFileRename (File sample_tfile) (name sample_tfile) sample_world =
    (Ret tt,
     add_trace [ELog Debug CVaultEventHandler "Processing file rename event"
                  (Some [("oldPath", VStr (name sample_tfile));
                         ("newPath", VStr (path sample_tfile))])] sample_world).
Proof.
  apply (rename_keeping_name_logs_debug_only sample_tfile "Archive" sample_world).
  reflexivity.
Defined.

Lemma delete_backup_test_ignores_case_witness :
  exists out,
    VaultEventHandler.onFileDelete (File shouting_tfile) sample_world
      = (Ret tt, add_trace out sample_world) /\
    ELog Warn CVaultEventHandler
      "File deleted from important location or appears to be backup"
      (Some [("path", VStr (path shouting_tfile));
             ("reason", VStr "deletion from protected area detected")]) ∈ out.
Proof.
  apply (delete_backup_test_ignores_case shouting_tfile "BACKUP" sample_world);
    reflexivity.
Defined.

Lemma updateSetting_logs_long_value_cut_witness :
  exists w' out shown,
    SettingsManager.updateSetting (settingsManager sample_plugin)
      exampleSetting (VStr long_value) sample_world = (Ret tt, w') /\
    trace (host w') = (trace (host sample_world) ++ out)%list /\
    last out = Some (ELog Info CSettingsManager "Setting successfully updated"
                       (Some [("key", VStr "exampleSetting"); ("newValue", VStr shown)])) /\
    settings_record w' !! "exampleSetting" = Some (VStr long_value) /\
    (JSString.length long_value <= 50 -> shown = long_value) /\
    (50 < JSString.length long_value ->
     shown = JSString.substring0 50 long_value +:+ "..." /\
     JSString.length shown = 53 /\
     String.prefix (JSString.substring0 50 long_value) long_value = true /\
     JSString.length (JSString.substring0 50 long_value) = 50).
Proof.
  apply (updateSetting_logs_long_value_cut
           (settingsManager sample_plugin) exampleSetting long_value sample_world).
  - exact sample_world_well_formed.
  - exact I.
Defined.

Lemma updates_compose_witness :
  settings_record
    (exec (exec sample_world (OpUpdateSetting exampleSetting (VStr "draft")))
          (OpUpdateSetting exampleSetting (VStr "final")))
    = settings_record (exec sample_world (OpUpdateSetting exampleSetting (VStr "final"))) /\
  (exampleSetting <> enableFeature ->
   settings_record
     (exec (exec sample_world (OpUpdateSetting exampleSetting (VStr "final")))
           (OpUpdateSetting enableFeature (VBool true)))
   = settings_record
       (exec (exec sample_world (OpUpdateSetting enableFeature (VBool true)))
             (OpUpdateSetting exampleSetting (VStr "final")))).
Proof.
  apply (updates_compose sample_world exampleSetting (VStr "final")
           enableFeature (VBool true) (VStr "draft")).
  exact sample_world_wired.
Defined.

Lemma failed_save_is_made_up_by_next_update_witness :
  let w1 := exec failing_world (OpUpdateSetting exampleSetting (VStr "hello")) in
  let w2 := exec w1 (OpUpdateSetting enableFeature (VBool true)) in
  disk (host w1) = disk (host failing_world) /\
  settings_record w2 =
    <["enableFeature" := VBool true]>
      (<["exampleSetting" := VStr "hello"]> (settings_record failing_world)) /\
  disk (host w2) = Some (settings_record w2).
Proof.
  apply (failed_save_is_made_up_by_next_update failing_world
           exampleSetting (VStr "hello") enableFeature (VBool true) disk_full).
  - exact failing_world_wired.
  - reflexivity.
  - vm_compute. exact I.
Defined.

Lemma settings_survive_restart_witness :
  exists p2 h2,
    TemplatePlugin.onload (host updated_world) = (Ret p2, h2) /\
    record_at (settings p2) h2 = settings_record updated_world.
Proof.
  apply (settings_survive_restart sample_host sample_plugin sample_loaded renamed_ops
           exampleSetting (VStr "hello") updated_world sample_onload).
  - vm_compute. reflexivity.
  - vm_compute. exact I.
Defined.

Lemma only_updateSetting_changes_state_witness :
  exists out,
    TemplatePlugin.onunload sample_world = (Ret tt, add_trace out sample_world) /\
    forallb is_log out = true /\
    saves out = [].
Proof.
  apply (only_updateSetting_changes_state sample_file "Old name.md" "click" None).
  unfold logging_callbacks, handlers. cbn [app].
  do 5 (apply elem_of_cons; right). apply elem_of_cons. by left.
Defined.

Lemma unknown_persisted_fields_are_kept_witness :
  let w := run (mkWorld sample_plugin legacy_loaded) sample_ops in
  settings_record w !! "legacyOption" = Some (VNum 3) /\
  forall blob, disk (host w) = Some blob -> blob !! "legacyOption" = Some (VNum 3).
Proof.
  apply (unknown_persisted_fields_are_kept legacy_host sample_plugin legacy_loaded
           {[ "legacyOption" := VNum 3 ]} "legacyOption" (VNum 3) sample_ops).
  - exact legacy_onload.
  - reflexivity.
  - reflexivity.
  - intros []; discriminate.
Defined.

Lemma getSettings_gives_the_live_object_witness :
  exists l w',
    SettingsManager.getSettings (settingsManager (plugin sample_world)) sample_world
      = (Ret l, w') /\
    let w'' := snd (in_host (set_field l "exampleSetting" (VStr "edited")) w') in
    settings_record w'' !! "exampleSetting" = Some (VStr "edited") /\
    disk (host w'') = disk (host sample_world) /\
    trace (host w'') = trace (host w').
Proof.
  apply (getSettings_gives_the_live_object sample_world "exampleSetting" (VStr "edited")).
  exact sample_world_wired.
Defined.

Lemma failed_update_is_lost_at_restart_witness :
  let w1 := exec failing_world (OpUpdateSetting enableFeature (VBool true)) in
  settings_record w1 !! "enableFeature" = Some (VBool true) /\
  exists out w2,
    TemplatePlugin.onunload w1 = (Ret tt, w2) /\
    w2 = add_trace out w1 /\
    forallb is_debug_log out = true /\
    (next_succeeds (host w2) ->
     exists p3 h3,
       TemplatePlugin.onload (host w2) = (Ret p3, h3) /\
       record_at (settings p3) h3 =
         {[ "enableFeature" := VBool false ]} ∪ TemplatePlugin.DEFAULT_SETTINGS).
Proof.
  apply (failed_update_is_lost_at_restart failing_world enableFeature (VBool true)
           disk_full {[ "enableFeature" := VBool false ]}).
  - exact failing_world_wired.
  - reflexivity.
  - vm_compute. reflexivity.
Defined.

Lemma onload_failure_registers_nothing_witness :
  exists h' out,
    TemplatePlugin.onload unreadable_host = (Throw (NonError "EACCES"), h') /\
    trace h' = (trace unreadable_host ++ out)%list /\
    host_calls out =
      [EInitLogger; ERegisterLoggerClass CTemplatePlugin "TemplatePlugin"; ELoadData] /\
    last out = Some (onload_failure_line (NonError "EACCES")) /\
    disk h' = disk unreadable_host /\
    forall l, is_Some (heap unreadable_host !! l) -> heap h' !! l = heap unreadable_host !! l.
Proof.
  apply (onload_failure_registers_nothing unreadable_host (NonError "EACCES")).
  reflexivity.
Defined.

Lemma onload_registers_once_and_never_saves_witness :
  exists p h' out,
    TemplatePlugin.onload sample_host = (Ret p, h') /\
    trace h' = (trace sample_host ++ out)%list /\
    host_calls out = onload_host_calls /\
    saves out = [] /\
    disk h' = disk sample_host /\
    pending h' = tail (pending sample_host) /\
    sm_settings (settingsManager p) = settings p /\
    heap sample_host !! settings p = None /\
    forall l, l <> settings p -> heap h' !! l = heap sample_host !! l.
Proof.
  apply (onload_registers_once_and_never_saves sample_host). exact I.
Defined.

Lemma old_name_is_last_path_segment_witness :
  has_unit "/" (last_segment "notes/daily/a b.md") = false /\
  last_segment "notes/daily/a b.md" = "a b.md".
Proof.
  destruct (old_name_is_last_path_segment "notes/daily/a b.md") as [Hno Hseg].
  split; [exact Hno|].
  apply (Hseg "notes/daily" "a b.md"); reflexivity.
Defined.

Lemma create_temp_rule_needs_a_leading_slash_witness :
  exists out,
    VaultEventHandler.onFileCreate (File nested_temp_tfile) enabled_world
      = (Ret tt, add_trace out enabled_world) /\
    restricted_line nested_temp_tfile ∈ out.
Proof.
  destruct (create_temp_rule_needs_a_leading_slash nested_temp_tfile enabled_world eq_refl)
    as (out & Hrun & Hin & _).
  exists out. split; [exact Hrun|].
  apply (Hin "notes" "draft.md"). reflexivity.
Defined.
